(** * ProjectilX: the physics / animation core of the projectile simulator

    A shallow embedding of the computational core of [src/App.tsx] and of the
    consolidated single-file build ([src/unnamed/part_000]):

    - [calculateTelemetry], the closed-form kinematics evaluator;
    - [animate], [handleReset], [handleToggle]: the per-frame animation
      driver and the two commands of the header buttons;
    - the world-to-screen scale computed in [SimulationCanvas].

    JavaScript numbers are modelled by exact real arithmetic.  The evaluator
    and the driver only add, subtract and multiply finite numbers, so they
    are written over [R] directly.  The coordinate mapper divides and takes
    a square root; there the IEEE special values (the two infinities and
    NaN) are observable, so it is written over [num], the reals extended
    with these three values.  Rounding is not modelled there: statements
    over [R] are about the exact value of each expression.

    Where the rounding of the program decides a property of the evaluator,
    the module [Doubles] gives [calculateTelemetry] as the program computes
    it, in binary64 with primitive floats.

    A frame is one call of [animate] together with the state updater it
    hands to [setCurrentTime], run once; the state of the component is
    threaded explicitly through frames and button handlers. *)

From Stdlib Require Import Floats String Reals Lra Psatz List ZArith Bool.
Import ListNotations.

Open Scope R_scope.

(** ** Data model ([types.ts], and the same declarations in the
       consolidated build) *)

Record PhysicsParams : Type := mkParams {
  theta : R;    (* angle in degrees *)
  v0 : R;       (* initial velocity, m/s *)
  h0 : R;       (* initial height, m *)
  gravity : R;  (* m/s^2 *)
  mass : R      (* kg, not used by the trajectory *)
}.

Record TelemetryData : Type := mkTelemetry {
  t : R;
  x : R;
  y : R;
  vx : R;
  vy : R;
  v : R
}.

(** ** Kinematics evaluator *)

(** [calculateTelemetry] of [App.tsx] (lines 33-46); [Math.pow(t, 2)] is
    [t ^ 2] and [Math.max] is [Rmax]. *)
Definition calculateTelemetry (t : R) (p : PhysicsParams) : TelemetryData :=
  let rad := (theta p * PI) / 180 in
  let vx0 := v0 p * cos rad in
  let vy0 := v0 p * sin rad in
  let x := vx0 * t in
  let y := h0 p + (vy0 * t) - (0.5 * gravity p * t ^ 2) in
  let vx := vx0 in
  let vy := vy0 - (gravity p * t) in
  let v := sqrt (vx * vx + vy * vy) in
  mkTelemetry t x (Rmax 0 y) vx vy v.

(** The launch velocity components ([vx0], [vy0] inside
    [calculateTelemetry]) and the raw height before the floor clamp. *)
Definition vx0 (p : PhysicsParams) : R := v0 p * cos (theta p * PI / 180).
Definition vy0 (p : PhysicsParams) : R := v0 p * sin (theta p * PI / 180).
Definition yRaw (tm : R) (p : PhysicsParams) : R :=
  h0 p + vy0 p * tm - 0.5 * gravity p * tm ^ 2.

(** ** Comparisons of JavaScript numbers, as booleans *)

Definition Rltb (a b : R) : bool := if Rlt_dec a b then true else false.
Definition Rleb (a b : R) : bool := if Rle_dec a b then true else false.

(** [!n] for a number [n]: true exactly on zero (NaN does not occur in the
    driver). *)
Definition falsy (n : R) : bool := if Req_dec_T n 0 then true else false.

(** ** Animation driver: the state held by the [App] component *)

Record AppState : Type := mkApp {
  params : PhysicsParams;
  isRunning : bool;
  currentTime : R;
  telemetry : TelemetryData;
  history : list TelemetryData;
  lastTimeRef : R
}.

Definition zeroTelemetry : TelemetryData := mkTelemetry 0 0 0 0 0 0.

(** The [useState] / [useRef] initial values. *)
Definition initialParams : PhysicsParams := mkParams 45 20 0 9.81 1.

Definition initialState : AppState :=
  mkApp initialParams false 0 zeroTelemetry [] 0.

(** [deltaTime] of one call of [animate]: the baseline is replaced by the
    frame's timestamp when it is zero, then differenced. *)
Definition deltaTime (time : R) (s : AppState) : R :=
  let last := if falsy (lastTimeRef s) then time else lastTimeRef s in
  (time - last) / 1000.

(** The candidate elapsed time [next] and the sample evaluated at it. *)
Definition candidate (time : R) (s : AppState) : R :=
  currentTime s + deltaTime time s.

Definition currentData (time : R) (s : AppState) : TelemetryData :=
  calculateTelemetry (candidate time s) (params s).

(** "Stop if hit ground". *)
Definition hitGround (next : R) (d : TelemetryData) : bool :=
  Rltb 0 next && Rleb (y d) 0 && Rltb (vy d) 0.

(** One frame: [animate] together with the state updater it passes to
    [setCurrentTime]. *)
Definition animate (time : R) (s : AppState) : AppState :=
  if isRunning s then
    let prev := currentTime s in
    let next := candidate time s in
    let d := currentData time s in
    if hitGround next d
    then mkApp (params s) false prev d (history s ++ [d]) time
    else mkApp (params s) true next d (history s ++ [d]) time
  else
    mkApp (params s) false (currentTime s) (telemetry s) (history s) time.

Definition handleReset (s : AppState) : AppState :=
  mkApp (params s) false 0 zeroTelemetry [] 0.

Definition setIsRunning (b : bool) (s : AppState) : AppState :=
  mkApp (params s) b (currentTime s) (telemetry s) (history s) (lastTimeRef s).

(** [handleToggle] of [App.tsx]: a landed session is reset before it is
    started again. *)
Definition handleToggle (s : AppState) : AppState :=
  let s1 :=
    if Rltb 0 (currentTime s) && negb (isRunning s) && Rleb (y (telemetry s)) 0
    then handleReset s else s in
  setIsRunning (negb (isRunning s)) s1.

(** The launch button of the consolidated build:
    [onClick={() => setIsRunning(!isRunning)}]. *)
Definition toggleRunning (s : AppState) : AppState :=
  setIsRunning (negb (isRunning s)) s.

(** [setParams], reached from the sliders of [ControlPanel]. *)
Definition setParams (p : PhysicsParams) (s : AppState) : AppState :=
  mkApp p (isRunning s) (currentTime s) (telemetry s) (history s) (lastTimeRef s).

(** *** Runs of the application *)

Inductive Build : Type := Modular | Consolidated.

Inductive Command : Type :=
| Frame (time : R)
| Toggle
| Reset
| SetParams (p : PhysicsParams).

(** The sliders are disabled while the simulation runs. *)
Definition step (b : Build) (c : Command) (s : AppState) : AppState :=
  match c with
  | Frame time => animate time s
  | Toggle => match b with
              | Modular => handleToggle s
              | Consolidated => toggleRunning s
              end
  | Reset => handleReset s
  | SetParams p => if isRunning s then s else setParams p s
  end.

Definition run (b : Build) (cs : list Command) (s : AppState) : AppState :=
  fold_left (fun st c => step b c st) cs s.

(** ** JavaScript numbers with the IEEE special values

    Exact reals extended with [+Infinity], [-Infinity] and [NaN].  A zero
    is the positive zero (the only zero a slider or a preset produces), so
    a positive number divided by zero is [+Infinity]. *)

Inductive num : Type :=
| Fin (r : R)
| PInf
| NInf
| NaN.

Declare Scope num_scope.
Delimit Scope num_scope with num.
Bind Scope num_scope with num.

(** The infinity with the sign of [r]; [NaN] when [r] is zero
    ([0 * Infinity], [0 / 0]). *)
Definition inf_of_sign (r : R) : num :=
  if Rlt_dec 0 r then PInf else if Rlt_dec r 0 then NInf else NaN.

Definition nneg (a : num) : num :=
  match a with
  | Fin r => Fin (- r)
  | PInf => NInf
  | NInf => PInf
  | NaN => NaN
  end.

Definition nadd (a b : num) : num :=
  match a, b with
  | NaN, _ | _, NaN => NaN
  | Fin r1, Fin r2 => Fin (r1 + r2)
  | PInf, NInf | NInf, PInf => NaN
  | PInf, _ | _, PInf => PInf
  | NInf, _ | _, NInf => NInf
  end.

Definition nsub (a b : num) : num := nadd a (nneg b).

Definition nmul (a b : num) : num :=
  match a, b with
  | NaN, _ | _, NaN => NaN
  | Fin r1, Fin r2 => Fin (r1 * r2)
  | Fin r, PInf | PInf, Fin r => inf_of_sign r
  | Fin r, NInf | NInf, Fin r => inf_of_sign (- r)
  | PInf, PInf | NInf, NInf => PInf
  | PInf, NInf | NInf, PInf => NInf
  end.

Definition ndiv (a b : num) : num :=
  match a, b with
  | NaN, _ | _, NaN => NaN
  | Fin r1, Fin r2 => if Req_dec_T r2 0 then inf_of_sign r1 else Fin (r1 / r2)
  | Fin _, PInf | Fin _, NInf => Fin 0
  | PInf, Fin r => if Rlt_dec r 0 then NInf else PInf
  | NInf, Fin r => if Rlt_dec r 0 then PInf else NInf
  | PInf, PInf | PInf, NInf | NInf, PInf | NInf, NInf => NaN
  end.

(** [Math.sqrt]. *)
Definition nsqrt (a : num) : num :=
  match a with
  | Fin r => if Rlt_dec r 0 then NaN else Fin (sqrt r)
  | PInf => PInf
  | NInf | NaN => NaN
  end.

(** [Math.pow(a, 2)]. *)
Definition npow2 (a : num) : num :=
  match a with
  | Fin r => Fin (r ^ 2)
  | PInf | NInf => PInf
  | NaN => NaN
  end.

(** [Math.max] and [Math.min]: [NaN] as soon as one argument is. *)
Definition nmax (a b : num) : num :=
  match a, b with
  | NaN, _ | _, NaN => NaN
  | PInf, _ | _, PInf => PInf
  | NInf, c | c, NInf => c
  | Fin r1, Fin r2 => Fin (Rmax r1 r2)
  end.

Definition nmin (a b : num) : num :=
  match a, b with
  | NaN, _ | _, NaN => NaN
  | NInf, _ | _, NInf => NInf
  | PInf, c | c, PInf => c
  | Fin r1, Fin r2 => Fin (Rmin r1 r2)
  end.

(** [Math.cos] and [Math.sin]. *)
Definition ncos (a : num) : num :=
  match a with Fin r => Fin (cos r) | _ => NaN end.

Definition nsin (a : num) : num :=
  match a with Fin r => Fin (sin r) | _ => NaN end.

Coercion Fin : R >-> num.

Notation "a + b" := (nadd a b) : num_scope.
Notation "a - b" := (nsub a b) : num_scope.
Notation "a * b" := (nmul a b) : num_scope.
Notation "a / b" := (ndiv a b) : num_scope.

(** A number a canvas can be drawn with. *)
Definition positive_finite (a : num) : Prop :=
  match a with Fin r => 0 < r | _ => False end.

(** ** Coordinate mapper ([SimulationCanvas], consolidated build) *)

(** [canvas.parentElement?.clientWidth || 800]: the parent may be absent,
    and a zero width is falsy. *)
Definition orDefault (client : option Z) (dflt : Z) : Z :=
  match client with
  | Some c => if (c =? 0)%Z then dflt else c
  | None => dflt
  end.

Definition resize (parent : option (Z * Z)) : Z * Z :=
  (orDefault (option_map fst parent) 800, orDefault (option_map snd parent) 600).

Definition PADDING : R := 60.

Section Mapper.

Variable p : PhysicsParams.

Definition rad : num := (theta p * PI / 180)%num.
Definition v0x : num := (v0 p * ncos rad)%num.
Definition v0y : num := (v0 p * nsin rad)%num.
Definition t_peak : num := (v0y / gravity p)%num.
Definition h_max : num :=
  (h0 p + (v0y * t_peak) - (0.5 * gravity p * npow2 t_peak))%num.
Definition t_total : num :=
  ((v0y + nsqrt (v0y * v0y + 2 * gravity p * h0 p)) / gravity p)%num.
Definition x_max : num := (v0x * t_total)%num.

(** The canvas is [width] by [height] pixels. *)
Variables width height : Z.

Definition scaleX : num :=
  ((IZR width - PADDING * 2) / nmax (x_max * 1.2) 50)%num.
Definition scaleY : num :=
  ((IZR height - PADDING * 2) / nmax (h_max * 1.5) 30)%num.
Definition scale : num := nmin scaleX scaleY.

End Mapper.

(** The closed forms the mapper computes, over the reals: they are the
    values of [t_peak], [h_max], [t_total] and [x_max] whenever the gravity
    is positive and the launch height is not negative. *)
Definition timeToApex (p : PhysicsParams) : R := vy0 p / gravity p.
Definition apexHeight (p : PhysicsParams) : R :=
  h0 p + vy0 p * timeToApex p - 0.5 * gravity p * timeToApex p ^ 2.
Definition totalFlightTime (p : PhysicsParams) : R :=
  (vy0 p + sqrt (vy0 p * vy0 p + 2 * gravity p * h0 p)) / gravity p.
Definition maxRange (p : PhysicsParams) : R := vx0 p * totalFlightTime p.

(** ** Invariant and concrete sessions used in the examples below *)

(** Every frame keeps the floor: all recorded samples and the current one
    stay at or above the ground. *)
Definition above_ground (s : AppState) : Prop :=
  0 <= y (telemetry s) /\ Forall (fun d => 0 <= y d) (history s).

(** A vertical launch at 20 m/s under a gravity of 10 m/s^2. *)
Definition straightUp : PhysicsParams := mkParams 90 20 0 10 1.

(** Horizontal launches at 1 m/s under a gravity of 2 m/s^2: from a
    100 m cliff, and from the ground. *)
Definition cliffLaunch : PhysicsParams := mkParams 0 1 100 2 1.

Definition groundLaunch : PhysicsParams := mkParams 0 1 0 2 1.

(** A session one second into a flight, last frame at 1000 ms. *)
Definition midFlight : AppState :=
  mkApp groundLaunch true 1 zeroTelemetry [] 1000.

(** A paused flight resumed after its launch height was lowered, seen by a
    frame that carries the timestamp of the frame before it. *)
Definition stalled : AppState :=
  mkApp groundLaunch true 1
        (calculateTelemetry 1 cliffLaunch)
        [calculateTelemetry 0 cliffLaunch; calculateTelemetry 1 cliffLaunch]
        2000.

(** The first two frames of a launch from the cliff. *)
Definition cliffTrace : list Command :=
  [SetParams cliffLaunch; Toggle; Frame 1000; Frame 2000].

Definition inFlight : AppState :=
  mkApp cliffLaunch true 1
        (calculateTelemetry 1 cliffLaunch)
        [calculateTelemetry 0 cliffLaunch; calculateTelemetry 1 cliffLaunch]
        2000.

Definition stalledTrace : list Command :=
  cliffTrace ++ [Toggle; SetParams groundLaunch; Toggle].

(** The cliff launch, stopped by a frame that arrives ten seconds late. *)
Definition landedTrace : list Command := cliffTrace ++ [Frame 12000].

Definition landed : AppState :=
  mkApp cliffLaunch false 1
        (calculateTelemetry 11 cliffLaunch)
        [calculateTelemetry 0 cliffLaunch; calculateTelemetry 1 cliffLaunch;
         calculateTelemetry 11 cliffLaunch]
        12000.

(** A vertical launch with the custom gravity slider at its minimum. *)
Definition weightless : PhysicsParams := mkParams 90 20 0 0 1.

(** ** The launch button label ([App.tsx], line 120) *)

Inductive ButtonLabel : Type := Pausar | Reiniciar | Lanzar.

Definition buttonLabel (s : AppState) : ButtonLabel :=
  if isRunning s then Pausar
  else if Rltb 0 (currentTime s) && Rleb (y (telemetry s)) 0 then Reiniciar
  else Lanzar.

(** ** Control panel ([ControlPanel], consolidated build) *)

Inductive GravityType : Type := EARTH | MOON | MARS | SUN | CUSTOM.

Definition GRAVITY_VALUES (g : GravityType) : R :=
  match g with
  | EARTH => 9.81
  | MOON => 1.62
  | MARS => 3.71
  | SUN => 274.0
  | CUSTOM => 9.81
  end.

(** [keyof PhysicsParams]. *)
Inductive Field : Type := Ftheta | Fv0 | Fh0 | Fgravity | Fmass.

Definition getField (f : Field) (p : PhysicsParams) : R :=
  match f with
  | Ftheta => theta p
  | Fv0 => v0 p
  | Fh0 => h0 p
  | Fgravity => gravity p
  | Fmass => mass p
  end.

(** [handleChange]: [setParams({ ...params, [field]: value })]. *)
Definition handleChange (f : Field) (value : R) (p : PhysicsParams)
  : PhysicsParams :=
  match f with
  | Ftheta => mkParams value (v0 p) (h0 p) (gravity p) (mass p)
  | Fv0 => mkParams (theta p) value (h0 p) (gravity p) (mass p)
  | Fh0 => mkParams (theta p) (v0 p) value (gravity p) (mass p)
  | Fgravity => mkParams (theta p) (v0 p) (h0 p) value (mass p)
  | Fmass => mkParams (theta p) (v0 p) (h0 p) (gravity p) value
  end.

(** What the panel holds: the parameters and the selected preset. *)
Record Panel : Type := mkPanel {
  panelParams : PhysicsParams;
  gravityPreset : GravityType
}.

Definition isCustom (g : GravityType) : bool :=
  match g with CUSTOM => true | _ => false end.

(** [handleGravityChange]: the preset is stored, and the gravity follows it
    unless the preset is the custom one. *)
Definition handleGravityChange (preset : GravityType) (c : Panel) : Panel :=
  mkPanel
    (if isCustom preset then panelParams c
     else handleChange Fgravity (GRAVITY_VALUES preset) (panelParams c))
    preset.

(** The [min] and [max] attributes of the range inputs. *)
Definition sliderMin (f : Field) : R :=
  match f with
  | Ftheta => 0
  | Fv0 => 1
  | Fh0 => 0
  | Fgravity => 0
  | Fmass => 0.1
  end.

Definition sliderMax (f : Field) : R :=
  match f with
  | Ftheta => 90
  | Fv0 => 200
  | Fh0 => 100
  | Fgravity => 300
  | Fmass => 50
  end.

(** The events of the panel.  The gravity slider is rendered only while the
    custom preset is selected, so a gravity slide reaches [handleChange]
    only then. *)
Inductive PanelEvent : Type :=
| Slide (f : Field) (value : R)
| SelectGravity (preset : GravityType).

Definition panelStep (e : PanelEvent) (c : Panel) : Panel :=
  match e with
  | Slide Fgravity value =>
      if isCustom (gravityPreset c)
      then mkPanel (handleChange Fgravity value (panelParams c)) (gravityPreset c)
      else c
  | Slide f value => mkPanel (handleChange f value (panelParams c)) (gravityPreset c)
  | SelectGravity preset => handleGravityChange preset c
  end.

Definition panelRun (es : list PanelEvent) (c : Panel) : Panel :=
  fold_left (fun st e => panelStep e st) es c.

Definition initialPanel : Panel := mkPanel initialParams EARTH.

(** A range input only delivers values between its [min] and [max]. *)
Definition inSliderRange (e : PanelEvent) : Prop :=
  match e with
  | Slide f value => sliderMin f <= value <= sliderMax f
  | SelectGravity _ => True
  end.

Definition withinSliders (p : PhysicsParams) : Prop :=
  forall f, sliderMin f <= getField f p <= sliderMax f.

(** What the panel keeps true. *)
Definition panelInvariant (c : Panel) : Prop :=
  withinSliders (panelParams c)
  /\ (isCustom (gravityPreset c) = false ->
      gravity (panelParams c) = GRAVITY_VALUES (gravityPreset c)).

(** ** Drawing helpers of [SimulationCanvas] *)

(** [a > b] on JavaScript numbers: false as soon as one side is NaN. *)
Definition ngtb (a b : num) : bool :=
  match a, b with
  | NaN, _ | _, NaN => false
  | Fin r1, Fin r2 => Rltb r2 r1
  | PInf, PInf | NInf, _ | Fin _, PInf => false
  | PInf, _ | Fin _, NInf => true
  end.

Definition GROUND_LEVEL (height : Z) : num := (IZR height - PADDING)%num.

Definition toPX (p : PhysicsParams) (width height : Z) (wx : num) : num :=
  (PADDING + wx * scale p width height)%num.

Definition toPY (p : PhysicsParams) (width height : Z) (wy : num) : num :=
  (GROUND_LEVEL height - wy * scale p width height)%num.

(** The loop that labels the axes: [for (let i = 0; i < 20; i++)], with
    [val = i * 10], left by [break] at the first label beyond the right
    end of the ground line.  [n] counts the iterations that remain; the
    result lists the values that get a label. *)
Fixpoint axisLabelsFrom (p : PhysicsParams) (width height : Z)
    (n : nat) (i : Z) : list Z :=
  match n with
  | O => []
  | S n' =>
      let val := (i * 10)%Z in
      if ngtb (toPX p width height (Fin (IZR val)))
              (IZR width - PADDING)%num
      then []
      else val :: axisLabelsFrom p width height n' (i + 1)%Z
  end.

Definition axisLabels (p : PhysicsParams) (width height : Z) : list Z :=
  axisLabelsFrom p width height 20 0%Z.

(** ** The analysis panel ([AIAnalysis], consolidated build) *)

Record AIState : Type := mkAI {
  isOpen : bool;
  loading : bool;
  analysis : option string
}.

(** How the request to the text service ends: a response whose [text] may
    be missing, or an exception. *)
Inductive Outcome : Type :=
| Responded (text : option string)
| Failed.

(** [text || fallback]: a missing or empty text is falsy. *)
Definition orText (text : option string) (fallback : string) : string :=
  match text with
  | Some s => if String.eqb s EmptyString then fallback else s
  | None => fallback
  end.

(** [getAIAnalysis] up to the [await]. *)
Definition startAnalysis (a : AIState) : AIState :=
  mkAI true true (analysis a).

(** [getAIAnalysis] from the [await] on: [try], [catch] and [finally]. *)
Definition finishAnalysis (o : Outcome) (a : AIState) : AIState :=
  mkAI (isOpen a) false
       (Some (match o with
              | Responded text => orText text "No se pudo generar el análisis."%string
              | Failed => "Error conectando con el asistente de IA."%string
              end)).

(** The close button of the panel. *)
Definition closePanel (a : AIState) : AIState :=
  mkAI false (loading a) (analysis a).

(** ** Measures of a run *)

Definition isFrame (c : Command) : bool :=
  match c with Frame _ => true | _ => false end.

(** The number of frames of a run. *)
Definition frameCount (cs : list Command) : nat :=
  List.length (filter isFrame cs).

(** Frame timestamps count from the time origin of the page; a run has
    non-zero stamps when no frame is stamped 0. *)
Definition nonzeroStamp (c : Command) : Prop :=
  match c with Frame time => time <> 0 | _ => True end.

(** The session part of the state is the one [handleReset] leaves. *)
Definition zeroedSession (s : AppState) : Prop :=
  currentTime s = 0 /\ telemetry s = zeroTelemetry /\ history s = [].

(** A launch at speed 0 from the ground. *)
Definition stillLaunch : PhysicsParams := mkParams 45 0 0 9.81 1.

(** ** The evaluator in binary64

    The same [calculateTelemetry], computed as the program computes it:
    every number is an IEEE double and every operation rounds.  [Math.cos]
    and [Math.sin] belong to the host and are taken from it; [Math.pow(t,
    2)] is the rounded square. *)

Module Doubles.

#[local] Open Scope float_scope.
#[local] Set Warnings "-inexact-float".

Record Host : Type := mkHost {
  Math_cos : float -> float;
  Math_sin : float -> float
}.

Definition Math_PI : float := 3.141592653589793.

Definition Math_pow2 (a : float) : float := a * a.

(** [Math.max]: NaN as soon as one argument is; of two zeros the positive
    one. *)
Definition Math_max (a b : float) : float :=
  if is_nan a || is_nan b then nan
  else if a <? b then b
  else if b <? a then a
  else if get_sign a then b else a.

Record PhysicsParams : Type := mkParams {
  theta : float;
  v0 : float;
  h0 : float;
  gravity : float;
  mass : float
}.

Record TelemetryData : Type := mkTelemetry {
  t : float;
  x : float;
  y : float;
  vx : float;
  vy : float;
  v : float
}.

Definition rad (p : PhysicsParams) : float := (theta p * Math_PI) / 180.

Definition calculateTelemetry (host : Host) (t : float) (p : PhysicsParams)
  : TelemetryData :=
  let rad := (theta p * Math_PI) / 180 in
  let vx0 := v0 p * Math_cos host rad in
  let vy0 := v0 p * Math_sin host rad in
  let x := vx0 * t in
  let y := h0 p + (vy0 * t) - (0.5 * gravity p * Math_pow2 t) in
  let vx := vx0 in
  let vy := vy0 - (gravity p * t) in
  let v := PrimFloat.sqrt (vx * vx + vy * vy) in
  mkTelemetry t x (Math_max 0 y) vx vy v.


Definition straightUp : PhysicsParams := mkParams 90 20 0 10 1.

End Doubles.

(** * Properties *)

(** ** Comparisons *)

Lemma Rltb_true (a b : R) : Rltb a b = true <-> a < b.
Proof. unfold Rltb; destruct (Rlt_dec a b); split; intros; try easy. Qed.

Lemma Rltb_false (a b : R) : Rltb a b = false <-> ~ a < b.
Proof. unfold Rltb; destruct (Rlt_dec a b); split; intros; try easy. Qed.

Lemma Rleb_true (a b : R) : Rleb a b = true <-> a <= b.
Proof. unfold Rleb; destruct (Rle_dec a b); split; intros; try easy. Qed.

Lemma Rleb_false (a b : R) : Rleb a b = false <-> ~ a <= b.
Proof. unfold Rleb; destruct (Rle_dec a b); split; intros; try easy. Qed.

Lemma falsy_zero : falsy 0 = true.
Proof. unfold falsy; destruct (Req_dec_T 0 0); [reflexivity | contradiction]. Qed.

Lemma falsy_nonzero (n : R) : n <> 0 -> falsy n = false.
Proof. intros H; unfold falsy; destruct (Req_dec_T n 0); [contradiction | reflexivity]. Qed.

Lemma calculateTelemetry_y_nonneg (tm : R) (p : PhysicsParams) :
  0 <= y (calculateTelemetry tm p).
Proof. unfold calculateTelemetry; simpl. apply Rmax_l. Qed.

(** ** The kinematics evaluator *)

Lemma calculateTelemetry_fields (tm : R) (p : PhysicsParams) :
  calculateTelemetry tm p =
  mkTelemetry tm (vx0 p * tm) (Rmax 0 (yRaw tm p)) (vx0 p)
    (vy0 p - gravity p * tm)
    (sqrt (vx0 p * vx0 p + (vy0 p - gravity p * tm) * (vy0 p - gravity p * tm))).
Proof. reflexivity. Qed.

Lemma launch_speed (p : PhysicsParams) :
  vx0 p * vx0 p + vy0 p * vy0 p = v0 p * v0 p.
Proof.
  unfold vx0, vy0.
  pose proof (sin2_cos2 (theta p * PI / 180)) as H.
  unfold Rsqr in H. nra.
Qed.










Lemma above_ground_initial : above_ground initialState.
Proof. split; simpl; [lra | constructor]. Qed.

Lemma above_ground_animate (time : R) (s : AppState) :
  above_ground s -> above_ground (animate time s).
Proof.
  intros [Ht Hh]. unfold animate.
  destruct (isRunning s); [| split; assumption].
  assert (Hd : 0 <= y (currentData time s)) by apply calculateTelemetry_y_nonneg.
  destruct (hitGround _ _); split; simpl; try exact Hd;
    apply Forall_app; split; auto.
Qed.

Lemma above_ground_step (b : Build) (c : Command) (s : AppState) :
  above_ground s -> above_ground (step b c s).
Proof.
  intros H. destruct c as [time | | | q]; simpl.
  - apply above_ground_animate, H.
  - destruct b; [unfold handleToggle | unfold toggleRunning].
    + destruct (_ && _ && _); [split; simpl; [lra | constructor] | exact H].
    + exact H.
  - split; simpl; [lra | constructor].
  - destruct (isRunning s); exact H.
Qed.

Lemma above_ground_run (b : Build) (cs : list Command) (s : AppState) :
  above_ground s -> above_ground (run b cs s).
Proof.
  revert s. induction cs as [| c cs IH]; intros s H; simpl.
  - exact H.
  - apply IH, above_ground_step, H.
Qed.

(** C5. Every sample produced by the evaluator has [y >= 0] (for any time
    and any parameters, since [y] is [max(0, h0 + vy0 t - 0.5 g t^2)]), and
    so has every sample stored in the trajectory or reported as current,
    after any sequence of frames and commands, in both builds. *)
Theorem samples_never_below_ground
    (tm : R) (p : PhysicsParams) (b : Build) (cs : list Command) :
  y (calculateTelemetry tm p) = Rmax 0 (h0 p + vy0 p * tm - 0.5 * gravity p * tm ^ 2)
  /\ 0 <= y (calculateTelemetry tm p)
  /\ 0 <= y (telemetry (run b cs initialState))
  /\ Forall (fun d => 0 <= y d) (history (run b cs initialState)).
Proof.
  split; [reflexivity |].
  split; [apply calculateTelemetry_y_nonneg |].
  apply (above_ground_run b cs initialState above_ground_initial).
Qed.

(** C9. The evaluator does not read the mass: two parameter sets that agree
    on angle, speed, height and gravity give the same sample at every
    time. *)
Theorem mass_noninterference (tm : R) (p q : PhysicsParams) :
  0 <= tm ->
  theta p = theta q -> v0 p = v0 q -> h0 p = h0 q -> gravity p = gravity q ->
  calculateTelemetry tm p = calculateTelemetry tm q.
Proof.
  intros _ Ha Hv Hh Hg. unfold calculateTelemetry.
  rewrite Ha, Hv, Hh, Hg. reflexivity.
Qed.

(** *** The evaluator at concrete launches *)

Lemma launch_horizontal (p : PhysicsParams) :
  theta p = 0 -> vx0 p = v0 p /\ vy0 p = 0.
Proof.
  intros H. unfold vx0, vy0. rewrite H.
  replace (0 * PI / 180) with 0 by lra.
  rewrite cos_0, sin_0. split; ring.
Qed.

Lemma launch_vertical (p : PhysicsParams) :
  theta p = 90 -> vx0 p = 0 /\ vy0 p = v0 p.
Proof.
  intros H. unfold vx0, vy0. rewrite H.
  replace (90 * PI / 180) with (PI / 2) by lra.
  rewrite cos_PI2, sin_PI2. split; ring.
Qed.

(** The default launch with a mass of 1 kg and of 50 kg, after 1 s. *)
Lemma mass_noninterference_witness :
  calculateTelemetry 1 (mkParams 45 20 0 9.81 1)
  = calculateTelemetry 1 (mkParams 45 20 0 9.81 50).
Proof.
  apply (mass_noninterference 1 (mkParams 45 20 0 9.81 1) (mkParams 45 20 0 9.81 50));
    [lra | reflexivity ..].
Defined.

(** ** The animation driver *)

Lemma hitGround_true (next : R) (d : TelemetryData) :
  hitGround next d = true <-> 0 < next /\ y d <= 0 /\ vy d < 0.
Proof.
  unfold hitGround. rewrite !andb_true_iff, !Rltb_true, Rleb_true. tauto.
Qed.

Lemma hitGround_airborne (next : R) (d : TelemetryData) :
  0 < y d -> hitGround next d = false.
Proof.
  intros H. destruct (hitGround next d) eqn:E; [| reflexivity].
  apply hitGround_true in E. lra.
Qed.

Lemma hitGround_at_zero (next : R) (d : TelemetryData) :
  next <= 0 -> hitGround next d = false.
Proof.
  intros H. destruct (hitGround next d) eqn:E; [| reflexivity].
  apply hitGround_true in E. lra.
Qed.

Lemma deltaTime_first (time : R) (s : AppState) :
  lastTimeRef s = 0 -> deltaTime time s = 0.
Proof.
  intros H. unfold deltaTime. rewrite H, falsy_zero. lra.
Qed.

Lemma deltaTime_baseline (time : R) (s : AppState) :
  lastTimeRef s <> 0 -> deltaTime time s = (time - lastTimeRef s) / 1000.
Proof.
  intros H. unfold deltaTime. rewrite falsy_nonzero by exact H. reflexivity.
Qed.

Lemma animate_stop (time : R) (s : AppState) :
  isRunning s = true ->
  hitGround (candidate time s) (currentData time s) = true ->
  animate time s =
  mkApp (params s) false (currentTime s) (currentData time s)
        (history s ++ [currentData time s]) time.
Proof. intros Hr Hg. unfold animate. rewrite Hr, Hg. reflexivity. Qed.

Lemma animate_continue (time : R) (s : AppState) :
  isRunning s = true ->
  hitGround (candidate time s) (currentData time s) = false ->
  animate time s =
  mkApp (params s) true (candidate time s) (currentData time s)
        (history s ++ [currentData time s]) time.
Proof. intros Hr Hg. unfold animate. rewrite Hr, Hg. reflexivity. Qed.

Lemma animate_idle (time : R) (s : AppState) :
  isRunning s = false ->
  animate time s =
  mkApp (params s) false (currentTime s) (telemetry s) (history s) time.
Proof. intros Hr. unfold animate. rewrite Hr. reflexivity. Qed.

(** Pressing the button of a running session pauses it, in both builds. *)
Lemma handleToggle_pause (s : AppState) :
  isRunning s = true -> handleToggle s = setIsRunning false s.
Proof.
  intros H. unfold handleToggle. rewrite H. cbn [negb].
  rewrite andb_false_r. reflexivity.
Qed.

(** A horizontal launch: the height only falls. *)
Lemma horizontal_sample (tm : R) (p : PhysicsParams) :
  theta p = 0 ->
  y (calculateTelemetry tm p) = Rmax 0 (h0 p - 0.5 * gravity p * tm ^ 2)
  /\ vy (calculateTelemetry tm p) = - (gravity p * tm).
Proof.
  intros H. destruct (launch_horizontal p H) as [_ Hy].
  rewrite calculateTelemetry_fields. simpl. unfold yRaw. rewrite Hy.
  split; [f_equal; ring | ring].
Qed.

(** C1 (as the code has it). On a running frame whose sample has [y <= 0]
    and [vy < 0] at a candidate time [> 0], the driver stops, keeps the
    elapsed time of before the frame, appends the overshoot sample to the
    trajectory and reports it as the current sample.  The discarded advance
    is the frame's [deltaTime]: the reported time is strictly below the
    candidate time exactly when that [deltaTime] is positive. *)
Theorem ground_stop_rolls_back (time : R) (s : AppState) :
  isRunning s = true ->
  0 < candidate time s ->
  y (currentData time s) <= 0 ->
  vy (currentData time s) < 0 ->
  isRunning (animate time s) = false
  /\ currentTime (animate time s) = currentTime s
  /\ history (animate time s) = history s ++ [currentData time s]
  /\ telemetry (animate time s) = currentData time s
  /\ candidate time s = currentTime (animate time s) + deltaTime time s
  /\ (currentTime (animate time s) < candidate time s <-> 0 < deltaTime time s).
Proof.
  intros Hr Hn Hy Hv.
  rewrite animate_stop; [| exact Hr | apply hitGround_true; tauto].
  simpl. unfold candidate. repeat split; intros; lra.
Qed.

(** A stop one second after the last accepted frame: the reported time is 1,
    the candidate time 2. *)
Lemma ground_stop_rolls_back_witness :
  isRunning midFlight = true
  /\ candidate 2000 midFlight = 2
  /\ y (currentData 2000 midFlight) <= 0
  /\ vy (currentData 2000 midFlight) < 0
  /\ isRunning (animate 2000 midFlight) = false
  /\ currentTime (animate 2000 midFlight) = 1
  /\ currentTime (animate 2000 midFlight) < candidate 2000 midFlight.
Proof.
  assert (Hd : deltaTime 2000 midFlight = 1)
    by (rewrite deltaTime_baseline; simpl; lra).
  assert (Hc : candidate 2000 midFlight = 2)
    by (unfold candidate; rewrite Hd; simpl; lra).
  destruct (horizontal_sample 2 groundLaunch eq_refl) as [Hy Hv].
  assert (Hy' : y (currentData 2000 midFlight) <= 0).
  { unfold currentData. rewrite Hc. change (params midFlight) with groundLaunch.
    rewrite Hy. simpl. rewrite Rmax_left; lra. }
  assert (Hv' : vy (currentData 2000 midFlight) < 0).
  { unfold currentData. rewrite Hc. change (params midFlight) with groundLaunch.
    rewrite Hv. simpl. lra. }
  assert (Hn : 0 < candidate 2000 midFlight) by (rewrite Hc; lra).
  destruct (ground_stop_rolls_back 2000 midFlight eq_refl Hn Hy' Hv')
    as (Hs & Ht & _ & _ & _ & Hlt).
  repeat split; try assumption.
  apply Hlt. rewrite Hd. lra.
Defined.

Lemma run_app (b : Build) (cs ds : list Command) (s : AppState) :
  run b (cs ++ ds) s = run b ds (run b cs s).
Proof. unfold run. apply fold_left_app. Qed.

Lemma cliff_airborne (tm : R) :
  0 <= tm <= 1 -> 0 < y (calculateTelemetry tm cliffLaunch).
Proof.
  intros H. destruct (horizontal_sample tm cliffLaunch eq_refl) as [Hy _].
  rewrite Hy. simpl. eapply Rlt_le_trans; [| apply Rmax_r]. nra.
Qed.

Lemma handleToggle_fresh (s : AppState) :
  isRunning s = false -> currentTime s = 0 ->
  handleToggle s = setIsRunning true s.
Proof.
  intros Hr Hc. unfold handleToggle. rewrite Hr, Hc.
  replace (Rltb 0 0) with false; [reflexivity |].
  symmetry. apply Rltb_false. lra.
Qed.

Lemma handleToggle_airborne (s : AppState) :
  isRunning s = false -> 0 < y (telemetry s) ->
  handleToggle s = setIsRunning true s.
Proof.
  intros Hr Hy. unfold handleToggle. rewrite Hr.
  replace (Rleb (y (telemetry s)) 0) with false.
  - rewrite andb_false_r. reflexivity.
  - symmetry. apply Rleb_false. lra.
Qed.

Lemma inFlight_reachable (b : Build) : run b cliffTrace initialState = inFlight.
Proof.
  unfold cliffTrace, run. cbn [fold_left].
  set (s1 := step b (SetParams cliffLaunch) initialState).
  assert (E1 : s1 = mkApp cliffLaunch false 0 zeroTelemetry [] 0) by reflexivity.
  set (s2 := step b Toggle s1).
  assert (E2 : s2 = mkApp cliffLaunch true 0 zeroTelemetry [] 0).
  { subst s2. rewrite E1. destruct b; cbn [step]; [| reflexivity].
    rewrite handleToggle_fresh; reflexivity. }
  set (s3 := step b (Frame 1000) s2).
  assert (E3 : s3 = mkApp cliffLaunch true 0 (calculateTelemetry 0 cliffLaunch)
                          [calculateTelemetry 0 cliffLaunch] 1000).
  { subst s3. rewrite E2. cbn [step].
    assert (Hc : candidate 1000 (mkApp cliffLaunch true 0 zeroTelemetry [] 0) = 0)
      by (unfold candidate; rewrite deltaTime_first by reflexivity; simpl; lra).
    rewrite animate_continue; [| reflexivity |].
    - unfold currentData. rewrite Hc. reflexivity.
    - apply hitGround_at_zero. rewrite Hc. lra. }
  rewrite E3. cbn [step].
  match goal with |- animate _ ?s = _ =>
    assert (Hc : candidate 2000 s = 1)
      by (unfold candidate; rewrite deltaTime_baseline; simpl; lra)
  end.
  rewrite animate_continue; [| reflexivity |].
  - unfold currentData. rewrite Hc. reflexivity.
  - unfold currentData. rewrite Hc. apply hitGround_airborne.
    apply cliff_airborne. lra.
Qed.

Lemma stalled_reachable (b : Build) : run b stalledTrace initialState = stalled.
Proof.
  unfold stalledTrace. rewrite run_app, inFlight_reachable.
  unfold run. cbn [fold_left].
  assert (E5 : step b Toggle inFlight = setIsRunning false inFlight).
  { destruct b; cbn [step]; [| reflexivity].
    apply handleToggle_pause. reflexivity. }
  rewrite E5.
  assert (E6 : step b (SetParams groundLaunch) (setIsRunning false inFlight)
               = setParams groundLaunch (setIsRunning false inFlight))
    by reflexivity.
  rewrite E6. destruct b; cbn [step]; [| reflexivity].
  rewrite handleToggle_airborne; [reflexivity | reflexivity |].
  apply (cliff_airborne 1). lra.
Qed.

(** A stop on a frame whose [deltaTime] is 0: the session [stalled], reached
    in both builds by pausing the cliff launch, lowering the launch height
    and launching again, stops on a frame stamped like the one before it,
    and the reported elapsed time equals the candidate time. *)
Lemma stalled_frame_keeps_candidate :
  isRunning stalled = true
  /\ 0 < candidate 2000 stalled
  /\ y (currentData 2000 stalled) <= 0
  /\ vy (currentData 2000 stalled) < 0
  /\ ~ currentTime (animate 2000 stalled) < candidate 2000 stalled
  /\ run Modular stalledTrace initialState = stalled
  /\ run Consolidated stalledTrace initialState = stalled.
Proof.
  assert (Hm := stalled_reachable Modular).
  assert (Hk := stalled_reachable Consolidated).
  assert (Hd : deltaTime 2000 stalled = 0)
    by (rewrite deltaTime_baseline; simpl; lra).
  assert (Hc : candidate 2000 stalled = 1)
    by (unfold candidate; rewrite Hd; simpl; lra).
  destruct (horizontal_sample 1 groundLaunch eq_refl) as [Hy Hv].
  assert (Hy' : y (currentData 2000 stalled) <= 0).
  { unfold currentData. rewrite Hc. change (params stalled) with groundLaunch.
    rewrite Hy. simpl. rewrite Rmax_left; lra. }
  assert (Hv' : vy (currentData 2000 stalled) < 0).
  { unfold currentData. rewrite Hc. change (params stalled) with groundLaunch.
    rewrite Hv. simpl. lra. }
  split; [reflexivity |]. split; [rewrite Hc; lra |].
  split; [exact Hy' |]. split; [exact Hv' |].
  rewrite animate_stop; [| reflexivity | apply hitGround_true; rewrite Hc; repeat split; [lra | assumption ..]].
  simpl. rewrite Hc. repeat split; [lra | assumption ..].
Qed.

(** C2 (as the code has it). Launching an idle session keeps its elapsed
    time, trajectory and current sample; the one exception is the toggle
    of [App.tsx] on a landed session (elapsed time [> 0] and current [y <=
    0]), which resets the session before starting it.  The launch button
    of the consolidated build never resets. *)
Theorem launch_resumes_unless_landed (s : AppState) :
  isRunning s = false ->
  toggleRunning s = setIsRunning true s
  /\ (~ (0 < currentTime s /\ y (telemetry s) <= 0) ->
      handleToggle s = setIsRunning true s)
  /\ (0 < currentTime s -> y (telemetry s) <= 0 ->
      handleToggle s = setIsRunning true (handleReset s)).
Proof.
  intros Hr. unfold toggleRunning, handleToggle. rewrite Hr. cbn [negb].
  rewrite andb_true_r.
  split; [reflexivity |].
  destruct (Rltb 0 (currentTime s) && Rleb (y (telemetry s)) 0) eqn:E.
  - apply andb_true_iff in E. destruct E as [E1 E2].
    apply Rltb_true in E1. apply Rleb_true in E2.
    split; [tauto | reflexivity].
  - apply andb_false_iff in E.
    split; [reflexivity |]. intros H1 H2. destruct E as [E | E].
    + apply Rltb_false in E. contradiction.
    + apply Rleb_false in E. contradiction.
Qed.

Lemma cliff_landed_sample :
  y (calculateTelemetry 11 cliffLaunch) = 0
  /\ vy (calculateTelemetry 11 cliffLaunch) < 0.
Proof.
  destruct (horizontal_sample 11 cliffLaunch eq_refl) as [Hy Hv].
  rewrite Hy, Hv. simpl. split; [apply Rmax_left |]; lra.
Qed.

Lemma landed_reachable (b : Build) : run b landedTrace initialState = landed.
Proof.
  unfold landedTrace. rewrite run_app, inFlight_reachable.
  unfold run. cbn [fold_left step].
  assert (Hc : candidate 12000 inFlight = 11)
    by (unfold candidate; rewrite deltaTime_baseline; simpl; lra).
  destruct cliff_landed_sample as [Hy Hv].
  rewrite animate_stop; [| reflexivity |].
  - unfold currentData. rewrite Hc. reflexivity.
  - unfold currentData. rewrite Hc. apply hitGround_true.
    change (params inFlight) with cliffLaunch. lra.
Qed.

(** A paused flight resumes where it was in both builds; the landed one is
    reset by the toggle of [App.tsx]. *)
Lemma launch_resumes_unless_landed_witness :
  isRunning (setIsRunning false inFlight) = false
  /\ toggleRunning (setIsRunning false inFlight) = inFlight
  /\ handleToggle (setIsRunning false inFlight) = inFlight
  /\ isRunning landed = false
  /\ handleToggle landed = setIsRunning true (handleReset landed).
Proof.
  destruct (launch_resumes_unless_landed (setIsRunning false inFlight) eq_refl)
    as (Hk & Hm & _).
  destruct (launch_resumes_unless_landed landed eq_refl) as (_ & _ & Hl).
  split; [reflexivity |]. split; [exact Hk |].
  split.
  - apply Hm. intros [_ H]. pose proof (cliff_airborne 1 ltac:(lra)) as A.
    change (y (calculateTelemetry 1 cliffLaunch) <= 0) in H. lra.
  - split; [reflexivity |].
    apply Hl.
    + change (0 < 1). lra.
    + change (y (calculateTelemetry 11 cliffLaunch) <= 0).
      destruct cliff_landed_sample as [Hy _]. lra.
Defined.

(** In [App.tsx] the launch of a landed session starts again from zero,
    although no reset command was issued. *)
Lemma launch_of_landed_session_resets :
  run Modular landedTrace initialState = landed
  /\ ~ In Reset landedTrace
  /\ isRunning landed = false
  /\ currentTime landed = 1
  /\ isRunning (handleToggle landed) = true
  /\ currentTime (handleToggle landed) = 0
  /\ currentTime (handleToggle landed) <> currentTime landed
  /\ history (handleToggle landed) = []
  /\ history landed <> []
  /\ telemetry (handleToggle landed) = zeroTelemetry.
Proof.
  assert (E : handleToggle landed = setIsRunning true (handleReset landed)).
  { unfold handleToggle. cbn [currentTime isRunning telemetry negb landed].
    destruct cliff_landed_sample as [Hy _]. rewrite Hy.
    replace (Rltb 0 1) with true by (symmetry; apply Rltb_true; lra).
    replace (Rleb 0 0) with true by (symmetry; apply Rleb_true; lra).
    reflexivity. }
  split; [apply landed_reachable |].
  split; [intros H; repeat (destruct H as [H | H]; [discriminate H |]); exact H |].
  rewrite E.
  cbn [isRunning currentTime history telemetry setIsRunning handleReset landed].
  repeat split; try lra; discriminate.
Qed.

(** C7. Reset, from any state, gives the zeroed idle session (the
    parameters are not part of the session and are left alone): not
    running, elapsed time 0, empty trajectory, zero sample, no frame
    baseline, so that the next frame measures a zero [deltaTime]; it is the
    initial session, and resetting twice is resetting once. *)
Theorem reset_zeroes_and_is_idempotent (s : AppState) (time : R) :
  isRunning (handleReset s) = false
  /\ currentTime (handleReset s) = 0
  /\ history (handleReset s) = []
  /\ telemetry (handleReset s) = zeroTelemetry
  /\ lastTimeRef (handleReset s) = 0
  /\ params (handleReset s) = params s
  /\ handleReset s = setParams (params s) initialState
  /\ deltaTime time (handleReset s) = 0
  /\ handleReset (handleReset s) = handleReset s.
Proof.
  repeat split. apply deltaTime_first. reflexivity.
Qed.

(** C10. On a frame that finds no baseline (the first after start or after
    a reset), the baseline is set to the frame's timestamp before the
    difference is taken, so [deltaTime] is 0; a running session still
    records and reports a sample on that frame, evaluated at the elapsed
    time it already had, and the elapsed time does not advance. *)
Theorem first_frame_has_zero_delta (time : R) (s : AppState) :
  lastTimeRef s = 0 ->
  isRunning s = true ->
  deltaTime time s = 0
  /\ currentTime (animate time s) = currentTime s
  /\ telemetry (animate time s) = calculateTelemetry (currentTime s) (params s)
  /\ history (animate time s)
     = history s ++ [calculateTelemetry (currentTime s) (params s)]
  /\ lastTimeRef (animate time s) = time.
Proof.
  intros Hl Hr.
  pose proof (deltaTime_first time s Hl) as Hd.
  assert (Hc : candidate time s = currentTime s)
    by (unfold candidate; rewrite Hd; ring).
  split; [exact Hd |].
  unfold animate. rewrite Hr. unfold currentData. rewrite Hc.
  destruct (hitGround _ _); simpl; repeat split; reflexivity.
Qed.

(** The first frame of a launch straight after a reset, in either build:
    the session keeps running at elapsed time 0 with one sample. *)
Lemma first_frame_after_reset (b : Build) (time : R) (s : AppState) :
  run b [Reset; Toggle; Frame time] s =
  mkApp (params s) true 0 (calculateTelemetry 0 (params s))
        [calculateTelemetry 0 (params s)] time.
Proof.
  unfold run. cbn [fold_left].
  assert (E : step b Toggle (step b Reset s) = setIsRunning true (handleReset s)).
  { destruct b; cbn [step]; [| reflexivity].
    apply handleToggle_fresh; reflexivity. }
  rewrite E. cbn [step].
  assert (Hc : candidate time (setIsRunning true (handleReset s)) = 0)
    by (unfold candidate; rewrite deltaTime_first by reflexivity; simpl; lra).
  rewrite animate_continue; [| reflexivity |].
  - unfold currentData. rewrite Hc. reflexivity.
  - apply hitGround_at_zero. rewrite Hc. lra.
Qed.

(** The first frame of a launch from the initial state. *)
Lemma first_frame_has_zero_delta_witness :
  lastTimeRef (setIsRunning true initialState) = 0
  /\ isRunning (setIsRunning true initialState) = true
  /\ deltaTime 1000 (setIsRunning true initialState) = 0
  /\ currentTime (animate 1000 (setIsRunning true initialState)) = 0
  /\ history (animate 1000 (setIsRunning true initialState))
     = [calculateTelemetry 0 initialParams].
Proof.
  destruct (first_frame_has_zero_delta 1000 (setIsRunning true initialState)
              eq_refl eq_refl) as (Hd & Hc & _ & Hh & _).
  repeat split; assumption.
Defined.

(** ** The coordinate mapper *)

Lemma ndiv_fin (a b : R) : b <> 0 -> ndiv (Fin a) (Fin b) = Fin (a / b).
Proof.
  intros H. unfold ndiv. destruct (Req_dec_T b 0); [contradiction | reflexivity].
Qed.

Lemma ndiv_by_zero (a : R) : ndiv (Fin a) (Fin 0) = inf_of_sign a.
Proof.
  unfold ndiv. destruct (Req_dec_T 0 0) as [_ | H]; [reflexivity |].
  exfalso. apply H. reflexivity.
Qed.

Lemma inf_of_sign_zero (r : R) : r = 0 -> inf_of_sign r = NaN.
Proof.
  intros H. unfold inf_of_sign.
  destruct (Rlt_dec 0 r); [lra |]. destruct (Rlt_dec r 0); [lra | reflexivity].
Qed.

Lemma inf_of_sign_pos (r : R) : 0 < r -> inf_of_sign r = PInf.
Proof.
  intros H. unfold inf_of_sign. destruct (Rlt_dec 0 r); [reflexivity | lra].
Qed.

Lemma inf_of_sign_not_finite (r : R) : forall q, inf_of_sign r <> Fin q.
Proof.
  intros q. unfold inf_of_sign.
  destruct (Rlt_dec 0 r); [discriminate |].
  destruct (Rlt_dec r 0); discriminate.
Qed.

Lemma nsqrt_fin (a : R) : 0 <= a -> nsqrt (Fin a) = Fin (sqrt a).
Proof.
  intros H. unfold nsqrt. destruct (Rlt_dec a 0); [lra | reflexivity].
Qed.

Lemma nadd_NaN_r (a : num) : nadd a NaN = NaN.
Proof. destruct a; reflexivity. Qed.

Lemma nsub_NaN_r (a : num) : nsub a NaN = NaN.
Proof. unfold nsub. apply nadd_NaN_r. Qed.

Lemma ndiv_NaN_r (a : num) : ndiv a NaN = NaN.
Proof. destruct a; reflexivity. Qed.

Lemma nmin_NaN_r (a : num) : nmin a NaN = NaN.
Proof. destruct a; reflexivity. Qed.

Lemma rad_finite (p : PhysicsParams) : rad p = Fin (theta p * PI / 180).
Proof. unfold rad. cbn [nmul]. apply ndiv_fin. lra. Qed.

Lemma v0x_finite (p : PhysicsParams) : v0x p = Fin (vx0 p).
Proof. unfold v0x. rewrite rad_finite. reflexivity. Qed.

Lemma v0y_finite (p : PhysicsParams) : v0y p = Fin (vy0 p).
Proof. unfold v0y. rewrite rad_finite. reflexivity. Qed.

Lemma t_peak_finite (p : PhysicsParams) :
  gravity p <> 0 -> t_peak p = Fin (timeToApex p).
Proof.
  intros H. unfold t_peak. rewrite v0y_finite. apply ndiv_fin, H.
Qed.

Lemma h_max_finite (p : PhysicsParams) :
  gravity p <> 0 -> h_max p = Fin (apexHeight p).
Proof.
  intros H. unfold h_max. rewrite v0y_finite, t_peak_finite by exact H.
  reflexivity.
Qed.

Lemma t_total_finite (p : PhysicsParams) :
  gravity p <> 0 -> 0 <= vy0 p * vy0 p + 2 * gravity p * h0 p ->
  t_total p = Fin (totalFlightTime p).
Proof.
  intros Hg Hs. unfold t_total. rewrite v0y_finite. cbn [nmul nadd].
  rewrite nsqrt_fin by exact Hs. cbn [nadd]. apply ndiv_fin, Hg.
Qed.

Lemma x_max_finite (p : PhysicsParams) :
  gravity p <> 0 -> 0 <= vy0 p * vy0 p + 2 * gravity p * h0 p ->
  x_max p = Fin (maxRange p).
Proof.
  intros Hg Hs. unfold x_max. rewrite v0x_finite, t_total_finite by assumption.
  reflexivity.
Qed.

Lemma discriminant_nonneg (p : PhysicsParams) :
  0 < gravity p -> 0 <= h0 p -> 0 <= vy0 p * vy0 p + 2 * gravity p * h0 p.
Proof. intros Hg Hh. nra. Qed.

(** With a finite range and apex the scale is the minimum of two finite
    quotients: the floors keep both divisors at 50 and 30 at least. *)
Lemma scale_finite (p : PhysicsParams) (width height : Z) :
  gravity p <> 0 -> 0 <= vy0 p * vy0 p + 2 * gravity p * h0 p ->
  scale p width height =
  Fin (Rmin ((IZR width - 120) / Rmax (maxRange p * 1.2) 50)
            ((IZR height - 120) / Rmax (apexHeight p * 1.5) 30)).
Proof.
  intros Hg Hs. unfold scale, scaleX, scaleY, PADDING.
  rewrite x_max_finite, h_max_finite by assumption.
  cbn [nmul nmax nsub nadd nneg].
  pose proof (Rmax_r (maxRange p * 1.2) 50) as Bx.
  pose proof (Rmax_r (apexHeight p * 1.5) 30) as By.
  rewrite !ndiv_fin by lra. cbn [nmin].
  do 2 f_equal; f_equal; lra.
Qed.

Lemma floor_quotient_pos (a m c : R) : 0 < a -> 0 < c -> 0 < a / Rmax m c.
Proof.
  intros Ha Hc. apply Rdiv_lt_0_compat; [exact Ha |].
  eapply Rlt_le_trans; [exact Hc | apply Rmax_r].
Qed.

(** C4 (as the code has it). For gravity [> 0], speed [>= 0] and a launch
    height [>= 0], on a canvas wider and taller than the two paddings
    (120 px), the scale is the minimum of the two floored quotients and is
    a finite, strictly positive number; with [v0 = 0] and [h0 = 0] the apex
    and the range are 0 and the floors 30 and 50 are the divisors. *)
Theorem scale_positive_finite (p : PhysicsParams) (width height : Z) :
  0 < gravity p -> 0 <= v0 p -> 0 <= h0 p ->
  (120 < width)%Z -> (120 < height)%Z ->
  scale p width height =
    Fin (Rmin ((IZR width - 120) / Rmax (maxRange p * 1.2) 50)
              ((IZR height - 120) / Rmax (apexHeight p * 1.5) 30))
  /\ positive_finite (scale p width height)
  /\ (v0 p = 0 -> h0 p = 0 ->
      apexHeight p = 0 /\ maxRange p = 0
      /\ scale p width height =
         Fin (Rmin ((IZR width - 120) / 50) ((IZR height - 120) / 30))).
Proof.
  intros Hg Hv Hh Hw Hht.
  assert (Hs := discriminant_nonneg p Hg Hh).
  assert (E := scale_finite p width height ltac:(lra) Hs).
  apply IZR_lt in Hw, Hht.
  split; [exact E |]. split.
  - rewrite E. cbn [positive_finite].
    apply Rmin_glb_lt; apply floor_quotient_pos; lra.
  - intros V0 H0.
    assert (Ey : vy0 p = 0) by (unfold vy0; rewrite V0; ring).
    assert (Ex : vx0 p = 0) by (unfold vx0; rewrite V0; ring).
    assert (Ea : apexHeight p = 0).
    { unfold apexHeight, timeToApex. rewrite Ey, H0. field. lra. }
    assert (Er : maxRange p = 0) by (unfold maxRange; rewrite Ex; ring).
    split; [exact Ea |]. split; [exact Er |].
    rewrite E, Ea, Er.
    rewrite !Rmult_0_l, !Rmax_right by lra. reflexivity.
Qed.

(** The default launch, and a launch at speed 0 from the ground, on a canvas
    of 800 by 600 pixels. *)
Lemma scale_positive_finite_witness :
  positive_finite (scale initialParams 800 600)
  /\ scale (mkParams 45 0 0 9.81 1) 800 600 = Fin (Rmin (680 / 50) (480 / 30)).
Proof.
  destruct (scale_positive_finite initialParams 800 600) as (_ & Hp & _);
    [simpl; lra | simpl; lra | simpl; lra | reflexivity | reflexivity |].
  destruct (scale_positive_finite (mkParams 45 0 0 9.81 1) 800 600)
    as (_ & _ & Hd);
    [simpl; lra | simpl; lra | simpl; lra | reflexivity | reflexivity |].
  destruct (Hd eq_refl eq_refl) as (_ & _ & E).
  split; [exact Hp |]. rewrite E. do 2 f_equal; lra.
Defined.

(** A canvas whose parent is 100 px wide: the horizontal room left by the
    paddings is negative, and so is the scale. *)
Lemma narrow_canvas_scale_negative :
  resize (Some (100, 600)%Z) = (100, 600)%Z
  /\ 0 < gravity initialParams /\ 0 <= v0 initialParams
  /\ (exists r, scale initialParams 100 600 = Fin r /\ r < 0)
  /\ ~ positive_finite (scale initialParams 100 600).
Proof.
  split; [reflexivity |].
  split; [simpl; lra |]. split; [simpl; lra |].
  assert (Hs : 0 <= vy0 initialParams * vy0 initialParams
                    + 2 * gravity initialParams * h0 initialParams)
    by (apply discriminant_nonneg; simpl; lra).
  assert (E := scale_finite initialParams 100 600 ltac:(simpl; lra) Hs).
  assert (N : Rmin ((100 - 120) / Rmax (maxRange initialParams * 1.2) 50)
                   ((600 - 120) / Rmax (apexHeight initialParams * 1.5) 30) < 0).
  { eapply Rle_lt_trans; [apply Rmin_l |].
    pose proof (Rmax_r (maxRange initialParams * 1.2) 50) as B.
    assert (0 < / Rmax (maxRange initialParams * 1.2) 50)
      by (apply Rinv_0_lt_compat; lra).
    unfold Rdiv. nra. }
  split.
  - eexists. split; [exact E | exact N].
  - rewrite E. cbn [positive_finite]. lra.
Qed.

(** With zero gravity the apex height is not a number: the quotient
    [v0y / 0] is infinite or NaN, and [0.5 * 0] times its square is NaN. *)
Lemma h_max_without_gravity (p : PhysicsParams) :
  gravity p = 0 -> t_peak p = inf_of_sign (vy0 p) /\ h_max p = NaN.
Proof.
  intros Hg.
  assert (Et : t_peak p = inf_of_sign (vy0 p)).
  { unfold t_peak. rewrite v0y_finite, Hg. apply ndiv_by_zero. }
  split; [exact Et |].
  unfold h_max. rewrite Et, Hg.
  assert (Ez : nmul (nmul (Fin 0.5) (Fin 0)) (npow2 (inf_of_sign (vy0 p))) = NaN).
  { cbn [nmul]. unfold inf_of_sign.
    destruct (Rlt_dec 0 (vy0 p)); [| destruct (Rlt_dec (vy0 p) 0)];
      cbn [npow2 nmul]; try reflexivity; apply inf_of_sign_zero; lra. }
  rewrite Ez. apply nsub_NaN_r.
Qed.

Lemma scale_of_NaN_apex (p : PhysicsParams) (width height : Z) :
  h_max p = NaN -> scale p width height = NaN.
Proof.
  intros H. unfold scale, scaleY. rewrite H. cbn [nmul nmax].
  rewrite ndiv_NaN_r. apply nmin_NaN_r.
Qed.

(** C3 (as the code has it). The mapper has no guard on gravity: the
    analytic pre-scaling is computed for every gravity.  With gravity 0 the
    quotient [v0y / gravity] is an infinity or NaN, the apex height is NaN
    and the scale is NaN, not a default scale; with a negative gravity the
    time to apex and the apex height are the finite values of the closed
    forms, obtained by dividing by that gravity. *)
Theorem mapper_has_no_gravity_guard (p : PhysicsParams) (width height : Z) :
  gravity p <= 0 ->
  (gravity p = 0
   /\ t_peak p = inf_of_sign (vy0 p)
   /\ h_max p = NaN
   /\ scale p width height = NaN)
  \/ (gravity p < 0
      /\ t_peak p = Fin (vy0 p / gravity p)
      /\ h_max p = Fin (apexHeight p)).
Proof.
  intros Hg. destruct (Req_dec_T (gravity p) 0) as [Hz | Hn].
  - left. destruct (h_max_without_gravity p Hz) as [Et Eh].
    repeat split; try assumption. apply scale_of_NaN_apex, Eh.
  - right. split; [lra |]. split.
    + apply t_peak_finite, Hn.
    + apply h_max_finite, Hn.
Qed.

(** The weightless vertical launch on a canvas of 800 by 600 pixels. *)
Lemma mapper_has_no_gravity_guard_witness :
  gravity weightless <= 0
  /\ h_max weightless = NaN
  /\ scale weightless 800 600 = NaN.
Proof.
  assert (Hg : gravity weightless <= 0) by (simpl; lra).
  split; [exact Hg |].
  destruct (mapper_has_no_gravity_guard weightless 800 600 Hg)
    as [(_ & _ & Eh & Es) | (Hn & _)].
  - split; assumption.
  - exfalso. simpl in Hn. lra.
Defined.

(** At zero gravity the division is carried out: the time to apex of a
    vertical launch is [+Infinity], and no usable scale comes out. *)
Lemma zero_gravity_is_divided_by :
  gravity weightless <= 0
  /\ t_peak weightless = ndiv (Fin 20) (Fin 0)
  /\ t_peak weightless = PInf
  /\ scale weightless 800 600 = NaN
  /\ ~ positive_finite (scale weightless 800 600).
Proof.
  destruct (launch_vertical weightless eq_refl) as [_ Hy].
  destruct (h_max_without_gravity weightless eq_refl) as [Et Eh].
  assert (Ev : vy0 weightless = 20) by (rewrite Hy; reflexivity).
  assert (Es := scale_of_NaN_apex weightless 800 600 Eh).
  split; [simpl; lra |].
  split; [rewrite Et, Ev, ndiv_by_zero; reflexivity |].
  split; [rewrite Et, Ev; apply inf_of_sign_pos; lra |].
  split; [exact Es |].
  rewrite Es. cbn [positive_finite]. tauto.
Qed.

(** * Further properties of the code *)

(** ** The exact trajectory: apex and landing *)

Lemma apex_gap (p : PhysicsParams) (tm : R) :
  gravity p <> 0 ->
  apexHeight p - yRaw tm p
  = gravity p / 2 * ((tm - timeToApex p) * (tm - timeToApex p)).
Proof.
  intros Hg. unfold apexHeight, yRaw, timeToApex.
  replace 0.5 with (/ 2) by lra. field. exact Hg.
Qed.

Lemma yRaw_le_apex (p : PhysicsParams) (tm : R) :
  0 < gravity p -> yRaw tm p <= apexHeight p.
Proof.
  intros Hg.
  pose proof (apex_gap p tm ltac:(lra)) as G.
  pose proof (Rle_0_sqr (tm - timeToApex p)) as S. unfold Rsqr in S.
  assert (0 <= gravity p / 2 * ((tm - timeToApex p) * (tm - timeToApex p)))
    by (apply Rmult_le_pos; lra).
  lra.
Qed.

(** The square root in the flight time, and what the mapper's flight time
    satisfies. *)
Lemma flight_time_facts (p : PhysicsParams) :
  0 < gravity p -> 0 <= h0 p ->
  exists s,
    0 <= s /\ s * s = vy0 p * vy0 p + 2 * gravity p * h0 p
    /\ gravity p * totalFlightTime p = vy0 p + s
    /\ 0 <= vy0 p + s /\ 0 <= s - vy0 p.
Proof.
  intros Hg Hh.
  pose proof (discriminant_nonneg p Hg Hh) as D.
  exists (sqrt (vy0 p * vy0 p + 2 * gravity p * h0 p)).
  pose proof (sqrt_pos (vy0 p * vy0 p + 2 * gravity p * h0 p)) as S0.
  pose proof (sqrt_sqrt _ D) as S2.
  split; [exact S0 |]. split; [exact S2 |]. split.
  - unfold totalFlightTime. field. lra.
  - split; nra.
Qed.

Lemma yRaw_factored (p : PhysicsParams) (tm s : R) :
  s * s = vy0 p * vy0 p + 2 * gravity p * h0 p ->
  2 * gravity p * yRaw tm p
  = (s + vy0 p - gravity p * tm) * (s - vy0 p + gravity p * tm).
Proof.
  intros S. unfold yRaw. replace 0.5 with (/ 2) by lra.
  transitivity (s * s - (gravity p * tm - vy0 p) * (gravity p * tm - vy0 p));
    [rewrite S; field | ring].
Qed.

(** After the launch instant the ground test of the driver succeeds exactly
    from the analytic flight time on. *)
Lemma hitGround_iff_flight_over (p : PhysicsParams) (tm : R) :
  0 < gravity p -> 0 <= h0 p -> 0 < tm ->
  (hitGround tm (calculateTelemetry tm p) = true <-> totalFlightTime p <= tm).
Proof.
  intros Hg Hh Ht.
  destruct (flight_time_facts p Hg Hh) as (s & S0 & S2 & GT & P1 & P2).
  pose proof (yRaw_factored p tm s S2) as F.
  assert (Pos : 0 < s - vy0 p + gravity p * tm) by nra.
  rewrite hitGround_true, calculateTelemetry_fields. cbn [y vy].
  split.
  - intros (_ & Hy & _).
    assert (Y : yRaw tm p <= 0)
      by (eapply Rle_trans; [apply Rmax_r | exact Hy]).
    assert (L : (s + vy0 p - gravity p * tm) * (s - vy0 p + gravity p * tm) <= 0)
      by nra.
    assert (s + vy0 p - gravity p * tm <= 0) by nra.
    nra.
  - intros HT.
    assert (U : vy0 p + s <= gravity p * tm) by nra.
    assert (Y : yRaw tm p <= 0).
    { assert ((s + vy0 p - gravity p * tm) * (s - vy0 p + gravity p * tm) <= 0)
        by nra.
      nra. }
    split; [exact Ht |]. split.
    + rewrite Rmax_left; lra.
    + destruct (Req_dec_T s 0) as [Z | NZ]; [| nra].
      assert (vy0 p = 0) by nra. nra.
Qed.

Lemma midFlight_lands :
  candidate 2000 midFlight = 2
  /\ hitGround (candidate 2000 midFlight) (currentData 2000 midFlight) = true
  /\ isRunning (animate 2000 midFlight) = false.
Proof.
  assert (Hc : candidate 2000 midFlight = 2).
  { unfold candidate. rewrite deltaTime_baseline; simpl; lra. }
  destruct (horizontal_sample 2 groundLaunch eq_refl) as [Hy Hv].
  assert (G : hitGround (candidate 2000 midFlight) (currentData 2000 midFlight)
              = true).
  { unfold currentData. rewrite Hc. change (params midFlight) with groundLaunch.
    apply hitGround_true. rewrite Hy, Hv. simpl.
    rewrite Rmax_left by lra. lra. }
  split; [exact Hc |]. split; [exact G |].
  rewrite animate_stop; [reflexivity | reflexivity | exact G].
Qed.

(** ** The driver: what a frame changes *)

(** X6. A stop is always a ground contact: the reported sample lies exactly on
    the ground and moves downwards, at a positive candidate time, and the
    elapsed time is the one of before the frame. *)
Theorem stop_reports_ground_contact (time : R) (s : AppState) :
  isRunning s = true ->
  isRunning (animate time s) = false ->
  y (telemetry (animate time s)) = 0
  /\ vy (telemetry (animate time s)) < 0
  /\ 0 < candidate time s
  /\ t (telemetry (animate time s)) = candidate time s
  /\ currentTime (animate time s) = currentTime s.
Proof.
  intros Hr Hs. unfold animate in *. rewrite Hr in *.
  destruct (hitGround (candidate time s) (currentData time s)) eqn:E;
    cbn [isRunning telemetry currentTime] in *; [| discriminate].
  apply hitGround_true in E. destruct E as (Hn & Hy & Hv).
  pose proof (calculateTelemetry_y_nonneg (candidate time s) (params s)) as P.
  unfold currentData in *.
  repeat split; try assumption; try reflexivity. lra.
Qed.

Lemma stop_reports_ground_contact_witness :
  isRunning midFlight = true
  /\ isRunning (animate 2000 midFlight) = false
  /\ y (telemetry (animate 2000 midFlight)) = 0
  /\ currentTime (animate 2000 midFlight) = 1.
Proof.
  destruct midFlight_lands as (_ & _ & Hs).
  destruct (stop_reports_ground_contact 2000 midFlight eq_refl Hs)
    as (Hy & _ & _ & _ & Hc).
  repeat split; assumption.
Defined.

(** X7. With a frame stamped no earlier than the baseline, the elapsed time
    does not go back, and the frame's stamp becomes the new baseline
    whether the session runs or not. *)
Theorem elapsed_time_never_decreases (time : R) (s : AppState) :
  lastTimeRef s <= time ->
  0 <= deltaTime time s
  /\ currentTime s <= currentTime (animate time s)
  /\ currentTime (animate time s) <= currentTime s + deltaTime time s
  /\ lastTimeRef (animate time s) = time.
Proof.
  intros H.
  assert (D : 0 <= deltaTime time s).
  { destruct (Req_dec_T (lastTimeRef s) 0) as [Z | NZ].
    - rewrite deltaTime_first by exact Z. lra.
    - rewrite deltaTime_baseline by exact NZ. lra. }
  split; [exact D |].
  unfold animate, candidate.
  destruct (isRunning s); [destruct (hitGround _ _) |];
    cbn [currentTime lastTimeRef]; repeat split; lra.
Qed.

Lemma elapsed_time_never_decreases_witness :
  lastTimeRef inFlight <= 2500
  /\ currentTime inFlight <= currentTime (animate 2500 inFlight)
  /\ lastTimeRef (animate 2500 inFlight) = 2500.
Proof.
  assert (H : lastTimeRef inFlight <= 2500) by (simpl; lra).
  destruct (elapsed_time_never_decreases 2500 inFlight H) as (_ & M & _ & L).
  repeat split; assumption.
Defined.

(** X8. Frames keep arriving while the session is idle: they change nothing
    but the baseline, so the time spent paused is not counted when the
    session is launched again. *)
Theorem paused_time_is_not_counted (t1 t2 : R) (s : AppState) :
  isRunning s = false ->
  t1 <> 0 ->
  animate t1 s = mkApp (params s) false (currentTime s) (telemetry s)
                       (history s) t1
  /\ candidate t2 (setIsRunning true (animate t1 s))
     = currentTime s + (t2 - t1) / 1000
  /\ candidate t2 (toggleRunning (animate t1 s))
     = currentTime s + (t2 - t1) / 1000.
Proof.
  intros Hr Ht. rewrite animate_idle by exact Hr.
  split; [reflexivity |].
  unfold toggleRunning, candidate. cbn [isRunning negb].
  rewrite deltaTime_baseline by exact Ht. split; reflexivity.
Qed.

Lemma paused_time_is_not_counted_witness :
  isRunning (setIsRunning false inFlight) = false
  /\ candidate 61000 (setIsRunning true (animate 60000 (setIsRunning false inFlight)))
     = 2.
Proof.
  destruct (paused_time_is_not_counted 60000 61000 (setIsRunning false inFlight)
              eq_refl ltac:(lra)) as (_ & C & _).
  split; [reflexivity |]. rewrite C. simpl. lra.
Defined.

(** ** The driver: invariants of a run *)

Lemma marker_step (b : Build) (c : Command) (s : AppState) :
  last (history s) zeroTelemetry = telemetry s ->
  last (history (step b c s)) zeroTelemetry = telemetry (step b c s).
Proof.
  intros H. destruct c as [time | | | q]; cbn [step].
  - unfold animate. destruct (isRunning s); [| exact H].
    destruct (hitGround _ _); cbn [history telemetry]; apply last_last.
  - destruct b; [unfold handleToggle | exact H].
    destruct (_ && _ && _); [reflexivity | exact H].
  - reflexivity.
  - destruct (isRunning s); exact H.
Qed.

(** X9. The current sample is always the last point of the trajectory (and the
    zero sample when the trajectory is empty): the marker is drawn at the
    end of the dashed path. *)
Theorem marker_at_end_of_path (b : Build) (cs : list Command) :
  last (history (run b cs initialState)) zeroTelemetry
  = telemetry (run b cs initialState).
Proof.
  unfold run.
  assert (G : forall s, last (history s) zeroTelemetry = telemetry s ->
              last (history (fold_left (fun st c => step b c st) cs s))
                   zeroTelemetry
              = telemetry (fold_left (fun st c => step b c st) cs s)).
  { induction cs as [| c cs IH]; intros s H; cbn [fold_left].
    - exact H.
    - apply IH, marker_step, H. }
  apply G. reflexivity.
Qed.

Lemma samples_step (b : Build) (c : Command) (s : AppState) :
  (List.length (history (step b c s))
   <= List.length (history s) + (if isFrame c then 1 else 0))%nat.
Proof.
  destruct c as [time | | | q]; cbn [step isFrame].
  - unfold animate. destruct (isRunning s); [| cbn [history]; lia].
    destruct (hitGround _ _); cbn [history]; rewrite length_app; simpl; lia.
  - destruct b; [unfold handleToggle | cbn; lia].
    destruct (_ && _ && _); cbn; lia.
  - cbn. lia.
  - destruct (isRunning s); cbn; lia.
Qed.

(** X10. The trajectory never holds more samples than frames were processed:
    a frame appends at most one sample, every other command none. *)
Theorem trajectory_bounded_by_frames (b : Build) (cs : list Command) :
  (List.length (history (run b cs initialState)) <= frameCount cs)%nat.
Proof.
  unfold run, frameCount.
  assert (G : forall s,
    (List.length (history (fold_left (fun st c => step b c st) cs s))
     <= List.length (history s) + List.length (filter isFrame cs))%nat).
  { induction cs as [| c cs IH]; intros s; cbn [fold_left filter].
    - lia.
    - pose proof (IH (step b c s)) as I.
      pose proof (samples_step b c s) as S.
      destruct (isFrame c); cbn [List.length]; lia. }
  apply (G initialState).
Qed.

Lemma zeroed_step (b : Build) (c : Command) (s : AppState) :
  nonzeroStamp c ->
  (lastTimeRef s = 0 -> zeroedSession s) ->
  lastTimeRef (step b c s) = 0 -> zeroedSession (step b c s).
Proof.
  intros Hc H. destruct c as [time | | | q]; cbn [step].
  - cbn [nonzeroStamp] in Hc. intros L. exfalso. apply Hc.
    unfold animate in L.
    destruct (isRunning s); [destruct (hitGround _ _) |]; exact L.
  - destruct b; [unfold handleToggle | exact H].
    destruct (_ && _ && _); [intros _; repeat split | exact H].
  - intros _. repeat split.
  - destruct (isRunning s); exact H.
Qed.

(** X11. When no frame is stamped 0, a session without baseline is a zeroed
    session: the frame that finds no baseline (and so measures no time)
    always evaluates the launch instant. *)
Theorem no_baseline_means_zeroed (b : Build) (cs : list Command) :
  Forall nonzeroStamp cs ->
  lastTimeRef (run b cs initialState) = 0 ->
  zeroedSession (run b cs initialState).
Proof.
  unfold run. intros F.
  assert (G : forall s, (lastTimeRef s = 0 -> zeroedSession s) ->
              lastTimeRef (fold_left (fun st c => step b c st) cs s) = 0 ->
              zeroedSession (fold_left (fun st c => step b c st) cs s)).
  { induction F as [| c cs Hc F IH]; intros s H; cbn [fold_left].
    - exact H.
    - apply IH. apply zeroed_step; assumption. }
  apply G. intros _. repeat split.
Qed.

Lemma no_baseline_means_zeroed_witness :
  Forall nonzeroStamp (landedTrace ++ [Toggle])
  /\ lastTimeRef (run Modular (landedTrace ++ [Toggle]) initialState) = 0
  /\ zeroedSession (run Modular (landedTrace ++ [Toggle]) initialState).
Proof.
  assert (F : Forall nonzeroStamp (landedTrace ++ [Toggle])).
  { repeat constructor; cbn; lra. }
  assert (E : run Modular (landedTrace ++ [Toggle]) initialState
              = setIsRunning true (handleReset landed)).
  { rewrite run_app, landed_reachable. unfold run. cbn [fold_left step].
    unfold handleToggle. cbn [currentTime isRunning telemetry negb landed].
    destruct cliff_landed_sample as [Hy _]. rewrite Hy.
    replace (Rltb 0 1) with true by (symmetry; apply Rltb_true; lra).
    replace (Rleb 0 0) with true by (symmetry; apply Rleb_true; lra).
    reflexivity. }
  assert (L : lastTimeRef (run Modular (landedTrace ++ [Toggle]) initialState) = 0)
    by (rewrite E; reflexivity).
  split; [exact F |]. split; [exact L |].
  exact (no_baseline_means_zeroed Modular (landedTrace ++ [Toggle]) F L).
Defined.

(** ** The launch button of [App.tsx] *)

(** X12. The label the button shows announces what pressing it does: "Pausar"
    stops a running session and keeps everything else, "Reiniciar" starts
    again from the zeroed session, "Lanzar" starts and keeps everything
    else. *)
Theorem label_announces_action (s : AppState) :
  match buttonLabel s with
  | Pausar => handleToggle s = setIsRunning false s
  | Reiniciar => handleToggle s = setIsRunning true (handleReset s)
  | Lanzar => handleToggle s = setIsRunning true s
  end.
Proof.
  unfold buttonLabel, handleToggle.
  destruct (isRunning s); cbn [negb].
  - rewrite andb_false_r. reflexivity.
  - rewrite andb_true_r.
    destruct (Rltb 0 (currentTime s) && Rleb (y (telemetry s)) 0); reflexivity.
Qed.

Lemma flat_launch_flight_time (p : PhysicsParams) :
  theta p = 0 -> h0 p = 0 -> 0 < gravity p -> totalFlightTime p = 0.
Proof.
  intros Ha Hh Hg. destruct (launch_horizontal p Ha) as [_ Hy].
  unfold totalFlightTime. rewrite Hy, Hh.
  replace (0 * 0 + 2 * gravity p * 0) with 0 by ring.
  rewrite sqrt_0. field. lra.
Qed.

(** X13. A horizontal launch from the ground never gets going: the first frame
    that measures time stops the session and gives the time back, so the
    elapsed time stays 0, the button still reads "Lanzar" and pressing it
    starts the same session again without clearing the trajectory. *)
Theorem flat_launch_never_advances (time : R) (s : AppState) :
  theta (params s) = 0 -> h0 (params s) = 0 -> 0 < gravity (params s) ->
  isRunning s = true -> currentTime s = 0 -> lastTimeRef s <= time ->
  currentTime (animate time s) = 0
  /\ (isRunning (animate time s) = false <-> 0 < deltaTime time s)
  /\ (0 < deltaTime time s ->
      buttonLabel (animate time s) = Lanzar
      /\ handleToggle (animate time s) = setIsRunning true (animate time s)).
Proof.
  intros Ha Hh Hg Hr Hc Hl.
  pose proof (flat_launch_flight_time (params s) Ha Hh Hg) as T.
  assert (D : 0 <= deltaTime time s).
  { destruct (Req_dec_T (lastTimeRef s) 0) as [Z | NZ].
    - rewrite deltaTime_first by exact Z. lra.
    - rewrite deltaTime_baseline by exact NZ. lra. }
  assert (C : candidate time s = deltaTime time s)
    by (unfold candidate; rewrite Hc; ring).
  assert (S : isRunning (animate time s) = false <-> 0 < deltaTime time s).
  { unfold animate. rewrite Hr.
    destruct (hitGround (candidate time s) (currentData time s)) eqn:E;
      cbn [isRunning].
    - split; [intros _ | reflexivity].
      apply hitGround_true in E. lra.
    - split; [discriminate |]. intros P. exfalso.
      assert (P' : 0 < candidate time s) by lra.
      pose proof (hitGround_iff_flight_over (params s) (candidate time s)
                    Hg ltac:(lra) P') as I.
      unfold currentData in E. rewrite E in I.
      assert (false = true) by (apply I; lra). discriminate. }
  assert (Z : currentTime (animate time s) = 0).
  { unfold animate. rewrite Hr.
    destruct (hitGround (candidate time s) (currentData time s)) eqn:E;
      cbn [currentTime]; [exact Hc |].
    destruct (Rle_lt_or_eq_dec _ _ D) as [P | Q]; [| lra].
    apply S in P. unfold animate in P. rewrite Hr, E in P. discriminate P. }
  split; [exact Z |]. split; [exact S |].
  intros P. apply S in P.
  assert (L : buttonLabel (animate time s) = Lanzar).
  { unfold buttonLabel. rewrite P, Z.
    replace (Rltb 0 0) with false by (symmetry; apply Rltb_false; lra).
    reflexivity. }
  split; [exact L |].
  apply handleToggle_fresh; assumption.
Qed.

(** The ground launch, running, before any time was measured. *)
Lemma flat_launch_never_advances_witness :
  currentTime (animate 2000 (mkApp groundLaunch true 0 zeroTelemetry [] 1000)) = 0
  /\ isRunning (animate 2000 (mkApp groundLaunch true 0 zeroTelemetry [] 1000))
     = false
  /\ buttonLabel (animate 2000 (mkApp groundLaunch true 0 zeroTelemetry [] 1000))
     = Lanzar.
Proof.
  destruct (flat_launch_never_advances 2000
              (mkApp groundLaunch true 0 zeroTelemetry [] 1000)
              eq_refl eq_refl ltac:(simpl; lra) eq_refl eq_refl
              ltac:(simpl; lra)) as (Z & S & L).
  assert (P : 0 < deltaTime 2000 (mkApp groundLaunch true 0 zeroTelemetry [] 1000))
    by (rewrite deltaTime_baseline; simpl; lra).
  split; [exact Z |]. split; [apply S, P | apply (L P)].
Defined.

(** ** The control panel *)

(** X14. A slider writes its own field and no other; a second write to a field
    overwrites the first. *)
Theorem handleChange_get_set (f g : Field) (a b : R) (p : PhysicsParams) :
  getField f (handleChange f a p) = a
  /\ (f <> g -> getField g (handleChange f a p) = getField g p)
  /\ handleChange f b (handleChange f a p) = handleChange f b p
  /\ handleChange f (getField f p) p = p.
Proof.
  split; [destruct f; reflexivity |].
  split; [intros N; destruct f, g; try reflexivity; contradiction |].
  split; destruct f, p; reflexivity.
Qed.

Lemma handleChange_get_set_witness :
  getField Fv0 (handleChange Fv0 35 initialParams) = 35
  /\ getField Fgravity (handleChange Fv0 35 initialParams) = 9.81.
Proof.
  destruct (handleChange_get_set Fv0 Fgravity 35 0 initialParams) as (G & O & _).
  split; [exact G |]. apply O. discriminate.
Defined.

Lemma GRAVITY_VALUES_range (g : GravityType) :
  0 < GRAVITY_VALUES g <= 300.
Proof. destruct g; simpl; lra. Qed.

Lemma withinSliders_handleChange (f : Field) (a : R) (p : PhysicsParams) :
  sliderMin f <= a <= sliderMax f ->
  withinSliders p -> withinSliders (handleChange f a p).
Proof.
  intros Ha W g. pose proof (W g) as Wg.
  destruct f, g; cbn in *; lra.
Qed.

Lemma panelInvariant_step (e : PanelEvent) (c : Panel) :
  inSliderRange e -> panelInvariant c -> panelInvariant (panelStep e c).
Proof.
  intros He I. pose proof I as [W G].
  destruct e as [f a | preset]; cbn [inSliderRange] in He.
  - destruct f; cbn [panelStep];
      try (split; cbn [panelParams gravityPreset];
           [apply withinSliders_handleChange; assumption | exact G]).
    destruct (isCustom (gravityPreset c)) eqn:E; [| exact I].
    split; cbn [panelParams gravityPreset].
    + apply withinSliders_handleChange; assumption.
    + rewrite E. discriminate.
  - unfold panelStep, handleGravityChange. split; cbn [panelParams gravityPreset].
    + destruct (isCustom preset); [exact W |].
      apply withinSliders_handleChange; [| exact W].
      pose proof (GRAVITY_VALUES_range preset). cbn. lra.
    + intros F. rewrite F. reflexivity.
Qed.

(** X15. Whatever is done with the sliders and the preset list, every parameter
    stays within the bounds of its slider, and while a named preset is
    selected the gravity is that preset's value, which is positive: only
    the custom slider can bring the gravity to 0. *)
Theorem panel_keeps_parameters_in_range (es : list PanelEvent) :
  Forall inSliderRange es ->
  withinSliders (panelParams (panelRun es initialPanel))
  /\ (isCustom (gravityPreset (panelRun es initialPanel)) = false ->
      gravity (panelParams (panelRun es initialPanel))
      = GRAVITY_VALUES (gravityPreset (panelRun es initialPanel))
      /\ 0 < gravity (panelParams (panelRun es initialPanel))).
Proof.
  intros F.
  assert (I : panelInvariant (panelRun es initialPanel)).
  { unfold panelRun.
    assert (G : forall c, panelInvariant c ->
                panelInvariant (fold_left (fun st e => panelStep e st) es c)).
    { induction F as [| e es He F IH]; intros c Hc; cbn [fold_left].
      - exact Hc.
      - apply IH, panelInvariant_step; assumption. }
    apply G. split.
    - intros f. destruct f; cbn; lra.
    - intros _. reflexivity. }
  destruct I as [W G]. split; [exact W |].
  intros C. split; [apply G, C |].
  rewrite (G C). apply GRAVITY_VALUES_range.
Qed.

Lemma panel_keeps_parameters_in_range_witness :
  Forall inSliderRange [SelectGravity MOON; Slide Ftheta 60; Slide Fgravity 0]
  /\ gravity (panelParams
       (panelRun [SelectGravity MOON; Slide Ftheta 60; Slide Fgravity 0]
                 initialPanel)) = 1.62
  /\ theta (panelParams
       (panelRun [SelectGravity MOON; Slide Ftheta 60; Slide Fgravity 0]
                 initialPanel)) <= 90.
Proof.
  assert (F : Forall inSliderRange
                [SelectGravity MOON; Slide Ftheta 60; Slide Fgravity 0]).
  { repeat constructor; cbn; lra. }
  destruct (panel_keeps_parameters_in_range _ F) as (W & G).
  split; [exact F |]. split.
  - destruct (G eq_refl) as [E _]. exact E.
  - apply (W Ftheta).
Defined.

(** Selecting a named preset sets the gravity to the preset's value;
    selecting the custom preset keeps the gravity that was there (the
    table's custom entry is never written); no other parameter moves. *)
Lemma handleGravityChange_sets_gravity (preset : GravityType) (c : Panel) :
  gravityPreset (handleGravityChange preset c) = preset
  /\ gravity (panelParams (handleGravityChange preset c))
     = (if isCustom preset then gravity (panelParams c)
        else GRAVITY_VALUES preset)
  /\ theta (panelParams (handleGravityChange preset c)) = theta (panelParams c)
  /\ v0 (panelParams (handleGravityChange preset c)) = v0 (panelParams c)
  /\ h0 (panelParams (handleGravityChange preset c)) = h0 (panelParams c)
  /\ mass (panelParams (handleGravityChange preset c)) = mass (panelParams c)
  /\ handleGravityChange preset (handleGravityChange preset c)
     = handleGravityChange preset c.
Proof.
  unfold handleGravityChange. cbn [gravityPreset panelParams].
  destruct (isCustom preset); repeat split; reflexivity.
Qed.

Lemma slider_angle_in_first_quadrant (p : PhysicsParams) :
  0 <= theta p <= 90 -> 0 <= theta p * PI / 180 <= PI / 2.
Proof. intros H. pose proof PI_RGT_0. nra. Qed.

Lemma first_quadrant_launch (p : PhysicsParams) :
  0 <= theta p <= 90 -> 0 <= v0 p -> 0 <= vx0 p /\ 0 <= vy0 p.
Proof.
  intros Ha Hv.
  pose proof (slider_angle_in_first_quadrant p Ha) as Q.
  pose proof PI_RGT_0 as Pp.
  assert (0 <= cos (theta p * PI / 180)) by (apply cos_ge_0; lra).
  assert (0 <= sin (theta p * PI / 180)) by (apply sin_ge_0; lra).
  unfold vx0, vy0. split; apply Rmult_le_pos; lra.
Qed.

Lemma totalFlightTime_nonneg (p : PhysicsParams) :
  0 < gravity p -> 0 <= h0 p -> 0 <= totalFlightTime p.
Proof.
  intros Hg Hh.
  destruct (flight_time_facts p Hg Hh) as (s & _ & _ & GT & P1 & _). nra.
Qed.

(** X16. For parameters within the slider bounds the launch velocity points
    forward and not downwards, the speed is at least 1 and the height is
    not negative. *)
Theorem slider_launch_points_forward (p : PhysicsParams) :
  withinSliders p ->
  0 <= vx0 p /\ 0 <= vy0 p /\ 1 <= v0 p /\ 0 <= h0 p /\ 0 <= gravity p.
Proof.
  intros W.
  pose proof (W Ftheta) as Ha. pose proof (W Fv0) as Hv.
  pose proof (W Fh0) as Hh. pose proof (W Fgravity) as Hg. cbn in *.
  pose proof (slider_angle_in_first_quadrant p Ha) as Q.
  pose proof PI_RGT_0 as Pp.
  assert (0 <= cos (theta p * PI / 180)) by (apply cos_ge_0; lra).
  assert (0 <= sin (theta p * PI / 180)) by (apply sin_ge_0; lra).
  unfold vx0, vy0. repeat split; try lra; apply Rmult_le_pos; lra.
Qed.

Lemma initialParams_withinSliders : withinSliders initialParams.
Proof. intros f. destruct f; cbn; lra. Qed.

Lemma slider_launch_points_forward_witness :
  withinSliders initialParams
  /\ 0 <= vx0 initialParams /\ 0 <= vy0 initialParams.
Proof.
  split; [exact initialParams_withinSliders |].
  destruct (slider_launch_points_forward initialParams initialParams_withinSliders)
    as (X & Y & _).
  split; assumption.
Defined.

(** ** The canvas: the flight fits the viewport *)

Lemma scale_bounds (p : PhysicsParams) (width height : Z) :
  0 < gravity p -> 0 <= h0 p -> (120 < width)%Z -> (120 < height)%Z ->
  exists r,
    scale p width height = Fin r /\ 0 < r
    /\ r * Rmax (maxRange p * 1.2) 50 <= IZR width - 120
    /\ r * Rmax (apexHeight p * 1.5) 30 <= IZR height - 120.
Proof.
  intros Hg Hh Hw Hht.
  assert (Hs := discriminant_nonneg p Hg Hh).
  assert (E := scale_finite p width height ltac:(lra) Hs).
  apply IZR_lt in Hw, Hht.
  pose proof (Rmax_r (maxRange p * 1.2) 50) as Bx.
  pose proof (Rmax_r (apexHeight p * 1.5) 30) as By.
  eexists. split; [exact E |]. split.
  - apply Rmin_glb_lt; apply floor_quotient_pos; lra.
  - split.
    + eapply Rle_trans;
        [apply Rmult_le_compat_r; [lra | apply Rmin_l] |].
      apply Req_le. field. lra.
    + eapply Rle_trans;
        [apply Rmult_le_compat_r; [lra | apply Rmin_r] |].
      apply Req_le. field. lra.
Qed.

Lemma toPX_finite (p : PhysicsParams) (width height : Z) (r a : R) :
  scale p width height = Fin r ->
  toPX p width height (Fin a) = Fin (PADDING + a * r).
Proof. intros E. unfold toPX. rewrite E. reflexivity. Qed.

Lemma toPY_finite (p : PhysicsParams) (width height : Z) (r a : R) :
  scale p width height = Fin r ->
  toPY p width height (Fin a) = Fin (IZR height + - PADDING + - (a * r)).
Proof. intros E. unfold toPY, GROUND_LEVEL. rewrite E. reflexivity. Qed.

(** X17. For a launch that points forward and not downwards, under a positive
    gravity and on a canvas larger than the paddings, every sample from the
    launch to the analytic landing is drawn inside the plot area: between
    the two horizontal paddings, and between the top padding and the ground
    line. *)
Theorem flight_fits_viewport
    (p : PhysicsParams) (width height : Z) (tm : R) :
  0 < gravity p -> 0 <= h0 p -> 0 <= vx0 p -> 0 <= vy0 p ->
  (120 < width)%Z -> (120 < height)%Z ->
  0 <= tm <= totalFlightTime p ->
  exists px py,
    toPX p width height (Fin (x (calculateTelemetry tm p))) = Fin px
    /\ toPY p width height (Fin (y (calculateTelemetry tm p))) = Fin py
    /\ 60 <= px <= IZR width - 60
    /\ 60 <= py <= IZR height - 60.
Proof.
  intros Hg Hh Hx Hy Hw Hht Ht.
  destruct (scale_bounds p width height Hg Hh Hw Hht) as (r & E & Hr & Bx & By).
  exists (PADDING + x (calculateTelemetry tm p) * r),
         (IZR height + - PADDING + - (y (calculateTelemetry tm p) * r)).
  split; [apply toPX_finite, E |]. split; [apply toPY_finite, E |].
  pose proof (Rmax_l (maxRange p * 1.2) 50) as Mx.
  pose proof (Rmax_l (apexHeight p * 1.5) 30) as My.
  pose proof (calculateTelemetry_y_nonneg tm p) as Y0.
  assert (A0 : 0 <= apexHeight p).
  { pose proof (yRaw_le_apex p 0 Hg) as G. unfold yRaw in G.
    replace (h0 p + vy0 p * 0 - 0.5 * gravity p * 0 ^ 2) with (h0 p) in G
      by (replace 0.5 with (/ 2) by lra; field).
    lra. }
  assert (Y1 : y (calculateTelemetry tm p) <= apexHeight p).
  { rewrite calculateTelemetry_fields. cbn [y].
    apply Rmax_lub; [exact A0 | apply yRaw_le_apex, Hg]. }
  assert (X0 : 0 <= x (calculateTelemetry tm p)).
  { rewrite calculateTelemetry_fields. cbn [x]. apply Rmult_le_pos; lra. }
  assert (X1 : x (calculateTelemetry tm p) <= maxRange p).
  { rewrite calculateTelemetry_fields. cbn [x]. unfold maxRange.
    apply Rmult_le_compat_l; lra. }
  assert (XR : x (calculateTelemetry tm p) * r
               <= r * Rmax (maxRange p * 1.2) 50).
  { rewrite (Rmult_comm r). apply Rmult_le_compat_r; lra. }
  assert (YR : y (calculateTelemetry tm p) * r
               <= r * Rmax (apexHeight p * 1.5) 30).
  { rewrite (Rmult_comm r). apply Rmult_le_compat_r; lra. }
  assert (0 <= x (calculateTelemetry tm p) * r) by (apply Rmult_le_pos; lra).
  assert (0 <= y (calculateTelemetry tm p) * r) by (apply Rmult_le_pos; lra).
  unfold PADDING. repeat split; lra.
Qed.

Lemma flight_fits_viewport_witness :
  exists px py,
    toPX initialParams 800 600
         (Fin (x (calculateTelemetry 0 initialParams))) = Fin px
    /\ toPY initialParams 800 600
         (Fin (y (calculateTelemetry 0 initialParams))) = Fin py
    /\ 60 <= px <= 800 - 60 /\ 60 <= py <= 600 - 60.
Proof.
  assert (Hg : 0 < gravity initialParams) by (simpl; lra).
  assert (Hh : 0 <= h0 initialParams) by (simpl; lra).
  destruct (first_quadrant_launch initialParams) as [Hx Hy];
    [simpl; lra | simpl; lra |].
  pose proof (totalFlightTime_nonneg initialParams Hg Hh) as T.
  exact (flight_fits_viewport initialParams 800 600 0 Hg Hh Hx Hy
           eq_refl eq_refl (conj (Rle_refl 0) T)).
Defined.

(** ** The canvas: axis labels and size *)

Lemma label_break_finite (p : PhysicsParams) (width height : Z) (r : R) (k : Z) :
  scale p width height = Fin r ->
  ngtb (toPX p width height (Fin (IZR (k * 10)))) (IZR width - PADDING)%num
  = Rltb (IZR width + - PADDING) (PADDING + IZR (k * 10) * r).
Proof. intros E. rewrite (toPX_finite _ _ _ r _ E). reflexivity. Qed.

Lemma axisLabelsFrom_spec
    (p : PhysicsParams) (width height : Z) (r : R) (n : nat) :
  scale p width height = Fin r -> 0 < r ->
  forall (i val : Z),
    In val (axisLabelsFrom p width height n i)
    <-> exists k, (i <= k < i + Z.of_nat n)%Z /\ val = (k * 10)%Z
                  /\ 60 + IZR (k * 10) * r <= IZR width - 60.
Proof.
  intros E Hr. induction n as [| n IH]; intros i val.
  - cbn [axisLabelsFrom]. split; [intros H; destruct H |].
    intros (k & Hk & _). lia.
  - cbn [axisLabelsFrom]. rewrite (label_break_finite _ _ _ r _ E).
    unfold PADDING.
    destruct (Rltb (IZR width + - (60)) (60 + IZR (i * 10) * r)) eqn:B.
    + apply Rltb_true in B. split; [intros H; destruct H |].
      intros (k & Hk & _ & Hc). exfalso.
      assert (IZR (i * 10) <= IZR (k * 10)) by (apply IZR_le; lia).
      assert (IZR (i * 10) * r <= IZR (k * 10) * r)
        by (apply Rmult_le_compat_r; lra).
      lra.
    + apply Rltb_false in B. cbn [In]. rewrite IH. split.
      * intros [V | (k & Hk & Hv & Hc)].
        -- exists i. split; [lia |]. split; [symmetry; exact V | lra].
        -- exists k. split; [lia |]. split; assumption.
      * intros (k & Hk & Hv & Hc).
        destruct (Z.eq_dec k i) as [Q | Q].
        -- left. subst. reflexivity.
        -- right. exists k. split; [lia |]. split; assumption.
Qed.

(** X18. With a positive finite scale, the values that get an axis label are
    exactly the multiples of 10 below 200 for which the test of the loop,
    [toPX(val) > canvas.width - PADDING], is false: leaving the loop at the
    first value that fails loses no later value, the positions growing
    with the value. *)
Theorem axis_labels_within_ground_line
    (p : PhysicsParams) (width height : Z) (r : R) (val : Z) :
  scale p width height = Fin r -> 0 < r ->
  (In val (axisLabels p width height)
   <-> exists k, (0 <= k < 20)%Z /\ val = (k * 10)%Z
                 /\ ngtb (toPX p width height (Fin (IZR val)))
                         (IZR width - PADDING)%num = false).
Proof.
  intros E Hr. unfold axisLabels.
  rewrite (axisLabelsFrom_spec p width height r 20 E Hr 0 val).
  split; intros (k & Hk & Hv & Hc); exists k; subst val;
    (split; [lia |]); (split; [reflexivity |]).
  - rewrite (label_break_finite _ _ _ r _ E). apply Rltb_false.
    unfold PADDING. lra.
  - rewrite (label_break_finite _ _ _ r _ E) in Hc. apply Rltb_false in Hc.
    unfold PADDING in Hc. lra.
Qed.

(** The launch at speed 0 on a canvas of 800 by 600 pixels: the scale is
    13.6 px per metre. *)
Lemma still_scale : scale stillLaunch 800 600 = Fin 13.6.
Proof.
  assert (Hg : gravity stillLaunch <> 0) by (simpl; lra).
  assert (Hs : 0 <= vy0 stillLaunch * vy0 stillLaunch
                    + 2 * gravity stillLaunch * h0 stillLaunch)
    by (apply discriminant_nonneg; simpl; lra).
  rewrite (scale_finite stillLaunch 800 600 Hg Hs).
  assert (Ey : vy0 stillLaunch = 0) by (unfold vy0; simpl; ring).
  assert (Ex : vx0 stillLaunch = 0) by (unfold vx0; simpl; ring).
  assert (Ea : apexHeight stillLaunch = 0).
  { unfold apexHeight, timeToApex. rewrite Ey. simpl. lra. }
  assert (Er : maxRange stillLaunch = 0)
    by (unfold maxRange; rewrite Ex; ring).
  rewrite Ea, Er, !Rmult_0_l, !Rmax_right by lra.
  f_equal. rewrite Rmin_left; lra.
Qed.

Lemma axis_labels_within_ground_line_witness :
  scale stillLaunch 800 600 = Fin 13.6
  /\ In 40%Z (axisLabels stillLaunch 800 600)
  /\ ~ In 60%Z (axisLabels stillLaunch 800 600).
Proof.
  pose proof (axis_labels_within_ground_line stillLaunch
                800 600 13.6 40 still_scale ltac:(lra)) as I40.
  pose proof (axis_labels_within_ground_line stillLaunch
                800 600 13.6 60 still_scale ltac:(lra)) as I60.
  split; [exact still_scale |]. split.
  - apply I40. exists 4%Z. split; [lia |]. split; [reflexivity |].
    rewrite (toPX_finite _ _ _ 13.6 _ still_scale).
    cbn [nsub nadd nneg ngtb]. apply Rltb_false. unfold PADDING. lra.
  - intros H. apply I60 in H. destruct H as (k & Hk & Hv & Hc).
    assert (k = 6%Z) by lia. subst k.
    rewrite (toPX_finite _ _ _ 13.6 _ still_scale) in Hc.
    cbn [nsub nadd nneg ngtb] in Hc. apply Rltb_false in Hc.
    unfold PADDING in Hc. lra.
Defined.

Lemma axisLabelsFrom_NaN (p : PhysicsParams) (width height : Z) (n : nat) :
  scale p width height = NaN ->
  forall i, axisLabelsFrom p width height n i
            = map (fun k => ((i + Z.of_nat k) * 10)%Z) (seq 0 n).
Proof.
  intros E. induction n as [| n IH]; intros i; [reflexivity |].
  cbn [axisLabelsFrom]. unfold toPX at 1. rewrite E. cbn [nmul nadd ngtb].
  cbn [seq map]. rewrite IH. f_equal; [f_equal; lia |].
  rewrite <- seq_shift, map_map. apply map_ext. intros k. f_equal. lia.
Qed.

(** X19. With a gravity of 0 the scale is NaN, no comparison with it succeeds,
    and the labelling loop is never left early: all twenty values, 0 to
    190, are sent to the canvas (at NaN coordinates), whatever its size. *)
Theorem axis_labels_without_gravity
    (p : PhysicsParams) (width height : Z) :
  gravity p = 0 ->
  axisLabels p width height
  = [0; 10; 20; 30; 40; 50; 60; 70; 80; 90; 100; 110; 120; 130; 140; 150;
     160; 170; 180; 190]%Z
  /\ forall val, toPX p width height (Fin val) = NaN
                 /\ toPY p width height (Fin val) = NaN.
Proof.
  intros Hg. destruct (h_max_without_gravity p Hg) as [_ Eh].
  pose proof (scale_of_NaN_apex p width height Eh) as E.
  split.
  - unfold axisLabels. rewrite (axisLabelsFrom_NaN p width height 20 E).
    reflexivity.
  - intros val. unfold toPX, toPY, GROUND_LEVEL. rewrite E. split; reflexivity.
Qed.

Lemma axis_labels_without_gravity_witness :
  gravity weightless = 0
  /\ List.length (axisLabels weightless 800 600) = 20%nat
  /\ toPX weightless 800 600 (Fin 0) = NaN.
Proof.
  destruct (axis_labels_without_gravity weightless 800 600 eq_refl) as [L P].
  split; [reflexivity |]. split; [rewrite L; reflexivity | apply P].
Defined.


(** ** The analysis panel *)

Lemma orText_nonempty (text : option string) (fallback : string) :
  fallback <> EmptyString -> orText text fallback <> EmptyString.
Proof.
  intros F. unfold orText. destruct text as [s |]; [| exact F].
  destruct (String.eqb_spec s EmptyString); assumption.
Qed.

(** X21. However the request ends, the panel stops loading and holds a text that
    is not empty: the text of the service, or one of the two fixed messages
    when the text is missing or empty or the request failed.  Closing the
    panel while the request runs does not discard the result. *)
Theorem analysis_never_empty (o : Outcome) (a : AIState) :
  loading (startAnalysis a) = true
  /\ isOpen (startAnalysis a) = true
  /\ analysis (startAnalysis a) = analysis a
  /\ loading (finishAnalysis o (startAnalysis a)) = false
  /\ isOpen (finishAnalysis o (startAnalysis a)) = true
  /\ isOpen (finishAnalysis o (closePanel (startAnalysis a))) = false
  /\ analysis (finishAnalysis o (closePanel (startAnalysis a)))
     = analysis (finishAnalysis o (startAnalysis a))
  /\ exists s, analysis (finishAnalysis o (startAnalysis a)) = Some s
               /\ s <> EmptyString.
Proof.
  repeat (split; [reflexivity |]).
  eexists. split; [reflexivity |].
  destruct o as [text |]; [apply orText_nonempty |]; discriminate.
Qed.

(** ** The evaluator: exact arithmetic and binary64 *)



(** *** Binary64: what the specification of the operations gives *)









Section Binary64.

Import Doubles.
#[local] Open Scope float_scope.
#[local] Set Warnings "-inexact-float".





End Binary64.
